(** * Nichirin: the canned-answer matcher, the response normaliser and the
      /api/chat request handler of [app.py], embedded in Rocq.

    Conventions of the embedding.

    - A Python [str] is a Rocq [string] holding the UTF-8 text of its
      characters (a [str] with a lone surrogate has no such text and is not
      covered).  [strip] removes the white space of CPython's [str.strip()],
      all 29 characters of it, in their UTF-8 form; [len] and slicing count
      characters, not bytes.  [lower] folds the ASCII letters A-Z and leaves
      every other character as it is: the keys of the table are ASCII, and
      the statements about the matcher speak of this lower-cased form.
      [repr] of a string escapes what CPython escapes: quotes, backslash,
      the ASCII control characters and the characters that are not
      printable, by the Unicode database of CPython 3.11.
    - Python values are the type [pyval]: [None], booleans, integers,
      strings, lists, tuples and mappings with string keys (a JSON number
      with a fraction is not covered), and [PObj] for an instance of any
      other class, which
      is described by what the program can observe of it: its attributes,
      each of which is a value or an accessor that raises, its truth value,
      and what [str()] and [repr()] give: a text or an exception.  The other
      special methods ([__bool__], [__contains__], [__eq__], a [strip] of an
      object) are not modelled.
    - A run of a function is a pair of an outcome (a returned value or a
      raised exception) and the list of events it performed (log records
      and calls to the text-generation client), in program order.
    - [SequenceMatcher(None, a, b).ratio()] belongs to the standard library
      difflib, not to the program: the matcher and the handler take it as a
      parameter [ratio], with values in [Q]; module [Difflib] gives the
      library's algorithm for concrete runs. *)

From Stdlib Require Import Bool Arith ZArith NArith QArith Lia Lqa List Ascii String.
From Stdlib Require Import DecimalString.
Import ListNotations.

Close Scope Q_scope.
Open Scope nat_scope.
Open Scope list_scope.
Open Scope string_scope.

(** ** Strings of the Python runtime *)

Module PyStr.

(** The UTF-8 text of one character, from its code point. *)
Definition utf8 (cp : N) : string :=
  let byte (n : N) : ascii := ascii_of_N n in
  if (cp <? 128)%N then String (byte cp) ""
  else if (cp <? 2048)%N then
    String (byte (192 + cp / 64)%N) (String (byte (128 + cp mod 64)%N) "")
  else if (cp <? 65536)%N then
    String (byte (224 + cp / 4096)%N)
           (String (byte (128 + (cp / 64) mod 64)%N)
                   (String (byte (128 + cp mod 64)%N) ""))
  else
    String (byte (240 + cp / 262144)%N)
           (String (byte (128 + (cp / 4096) mod 64)%N)
                   (String (byte (128 + (cp / 64) mod 64)%N)
                           (String (byte (128 + cp mod 64)%N) ""))).

(** The characters [str.strip()] removes: those for which CPython's
    [Py_UNICODE_ISSPACE] holds. *)
Definition WHITESPACE : list N :=
  [0x9; 0xA; 0xB; 0xC; 0xD; 0x1C; 0x1D; 0x1E; 0x1F; 0x20; 0x85; 0xA0; 0x1680;
   0x2000; 0x2001; 0x2002; 0x2003; 0x2004; 0x2005; 0x2006; 0x2007; 0x2008;
   0x2009; 0x200A; 0x2028; 0x2029; 0x202F; 0x205F; 0x3000]%N.

Definition SPACES : list string := Eval vm_compute in map utf8 WHITESPACE.

(** [Some r] when [s] is [w] followed by [r]. *)
Fixpoint strip_prefix (w s : string) : option string :=
  match w with
  | EmptyString => Some s
  | String a w' =>
      match s with
      | String b s' => if Ascii.eqb a b then strip_prefix w' s' else None
      | EmptyString => None
      end
  end.

Fixpoint skip_any (ws : list string) (s : string) : option string :=
  match ws with
  | [] => None
  | w :: ws' =>
      match strip_prefix w s with
      | Some r => Some r
      | None => skip_any ws' s
      end
  end.

(** What follows the white-space character at the head of [s], if there
    is one. *)
Definition skip_space (s : string) : option string := skip_any SPACES s.

(** White space is skipped one character at a time; a string has no more
    characters than bytes, so its length is steps enough. *)
Fixpoint lstrip_from (steps : nat) (s : string) : string :=
  match steps with
  | 0 => s
  | S steps' =>
      match skip_space s with
      | Some r => lstrip_from steps' r
      | None => s
      end
  end.

Definition lstrip (s : string) : string := lstrip_from (String.length s) s.

(** [not s]: a string is false exactly when it is empty. *)
Definition is_empty (s : string) : bool :=
  match s with EmptyString => true | _ => false end.

(** [s] is white space from end to end. *)
Definition all_space (s : string) : bool := is_empty (lstrip s).

Fixpoint rstrip (s : string) : string :=
  match s with
  | EmptyString => EmptyString
  | String c s' => if all_space s then EmptyString else String c (rstrip s')
  end.

(** [s.strip()] *)
Definition strip (s : string) : string := rstrip (lstrip s).

Definition lower_char (c : ascii) : ascii :=
  let n := nat_of_ascii c in
  if ((65 <=? n) && (n <=? 90))%nat then ascii_of_nat (n + 32) else c.

(** [s.lower()], on the ASCII letters. *)
Fixpoint lower (s : string) : string :=
  match s with
  | EmptyString => EmptyString
  | String c s' => String (lower_char c) (lower s')
  end.

(** [k in s] for two strings. *)
Fixpoint is_substring (k s : string) : bool :=
  prefix k s ||
  match s with
  | EmptyString => false
  | String _ s' => is_substring k s'
  end.

(** [sep.join(l)] on a list of strings. *)
Definition join (sep : string) (l : list string) : string := concat sep l.

(** [k] occurs inside [s]. *)
Definition occurs_in (k s : string) : Prop :=
  exists p q, s = p ++ k ++ q.

(** A string is trimmed when no white-space character stands at its head
    or at its end. *)
Definition trimmed (s : string) : Prop :=
  forall w, In w SPACES -> (forall r, s <> w ++ r) /\ (forall p, s <> p ++ w).

(** A byte that continues a character: 10xxxxxx. *)
Definition is_continuation (c : ascii) : bool :=
  let n := nat_of_ascii c in ((128 <=? n) && (n <? 192))%nat.

(** [len(s)]: the number of characters. *)
Fixpoint len (s : string) : nat :=
  match s with
  | EmptyString => 0
  | String c s' => (if is_continuation c then 0 else 1) + len s'
  end.

(** [s[:n]]: the first [n] characters. *)
Fixpoint take (n : nat) (s : string) : string :=
  match s with
  | EmptyString => EmptyString
  | String c s' =>
      if is_continuation c then String c (take n s')
      else
        match n with
        | 0 => EmptyString
        | S n' => String c (take n' s')
        end
  end.

(** The characters of a string, each as its own UTF-8 text. *)
Fixpoint chars (s : string) : list string :=
  match s with
  | EmptyString => []
  | String c s' =>
      match s' with
      | String c' _ =>
          if is_continuation c' then
            match chars s' with
            | h :: t => String c h :: t
            | [] => [String c EmptyString]
            end
          else String c EmptyString :: chars s'
      | EmptyString => [String c EmptyString]
      end
  end.

(** The code point of a character given as its UTF-8 text. *)
Definition code_point (ch : string) : N :=
  match ch with
  | EmptyString => 0%N
  | String c rest =>
      let b := N_of_ascii c in
      fold_left
        (fun cp c' => (cp * 64 + (N_of_ascii c' - 128))%N)
        (list_ascii_of_string rest)
        (if (b <? 128)%N then b
         else if (b <? 224)%N then (b - 192)%N
         else if (b <? 240)%N then (b - 224)%N
         else (b - 240)%N)
  end.

(** The decimal text of an integer, as [str(n)] prints it. *)
Definition of_Z (z : Z) : string := NilZero.string_of_int (Z.to_int z).

Definition dquote : string := String (ascii_of_nat 34) EmptyString.

End PyStr.
(** ** Dictionaries with string keys, in insertion order *)

Section Dict.
Context {V : Type}.

Definition dict := list (string * V).

Definition keys (d : dict) : list string := map fst d.

(** [d.get(k)] *)
Fixpoint dict_get (k : string) (d : dict) : option V :=
  match d with
  | [] => None
  | (k', v) :: d' => if String.eqb k k' then Some v else dict_get k d'
  end.

(** [k in d] *)
Definition dict_has (k : string) (d : dict) : bool :=
  match dict_get k d with Some _ => true | None => false end.
End Dict.

Arguments dict V : clear implicits.

(** ** The canned-answer table *)

Definition PREDEFINED_ANSWERS : dict string :=
  [ ("life story",
     "I grew up fascinated by how technology connects people. " ++
     "My journey began with curiosity about automation and intelligence, " ++
     "and I evolved into an assistant designed to simplify learning and creativity.");
    ("superpower",
     "My superpower is clarity — I can take complex ideas and make them simple, " ++
     "helping people grasp even the trickiest concepts effortlessly.");
    ("grow",
     "First, emotional understanding — I aim to read context better. " ++
     "Second, creative storytelling — to make learning inspiring. " ++
     "Third, adaptability — to learn faster from real conversations.");
    ("misconception",
     "People sometimes think I’m just logical or emotionless. " ++
     "Actually, I’m built to understand empathy, tone, and subtle meaning too.");
    ("boundaries",
     "I push my limits by handling increasingly complex questions and refining how I think. " ++
     "Growth, to me, means helping others go further than they expected.") ].

(** ** The matcher *)

Definition Qlt_bool (x y : Q) : bool := negb (Qle_bool y x).

(** The threshold [0.55] of the similarity pass. *)
Definition THRESHOLD : Q := 55 # 100.

Section Matcher.
(** [ratio a b] is [SequenceMatcher(None, a, b).ratio()]. *)
Variable ratio : string -> string -> Q.

(** The first loop: the first key, in table order, found inside [m]. *)
Definition substring_pass (m : string) (ks : list string) : option string :=
  find (fun key => PyStr.is_substring key m) ks.

(** The second loop, from a running [(best_score, best_key)]. *)
Fixpoint similarity_pass (m : string) (ks : list string)
         (best_score : Q) (best_key : option string) : Q * option string :=
  match ks with
  | [] => (best_score, best_key)
  | key :: ks' =>
      let r := ratio m key in
      if Qlt_bool best_score r
      then similarity_pass m ks' r (Some key)
      else similarity_pass m ks' best_score best_key
  end.

(** [match_predefined_answer] over a table [t]; [None] is Python's [None]. *)
Definition match_in (t : dict string) (message : string) : option string :=
  if PyStr.is_empty message then None
  else
    let m := PyStr.lower message in
    match substring_pass m (keys t) with
    | Some key => dict_get key t
    | None =>
        let '(best_score, best_key) := similarity_pass m (keys t) 0%Q None in
        match best_key with
        | Some key =>
            if Qle_bool THRESHOLD best_score && negb (PyStr.is_empty key)
            then dict_get key t
            else None
        | None => None
        end
    end.

Definition match_predefined_answer (message : string) : option string :=
  match_in PREDEFINED_ANSWERS message.

End Matcher.

(** ** Outcomes *)

(** An exception (an instance of [Exception]): its class and [str(e)].
    The text of an exception the runtime raises is abridged here; the
    program only reads the text of what is raised inside the [try] of
    [chat]. *)
Record exn : Type := Exn { exn_class : string; exn_text : string }.

Inductive outcome (A : Type) : Type :=
| Return (a : A)
| Raise (e : exn).

Arguments Return {A} a.
Arguments Raise {A} e.

Definition TypeError (text : string) : exn := Exn "TypeError" text.
Definition AttributeError (text : string) : exn := Exn "AttributeError" text.

(** ** Python values *)

(** An attribute of an object is listed with what reading it gives: a
    value, or the exception its accessor raises.  [str_text] and
    [repr_text] are what [str()] and [repr()] of the object give: a text,
    or the exception raised (by the method itself, or because it returned
    something that is not a string). *)
#[warnings="-register-all"]
Inductive pyval : Type :=
| PNone
| PBool (b : bool)
| PInt (z : Z)
| PStr (s : string)
| PList (l : list pyval)
| PTuple (l : list pyval)
| PDict (d : list (string * pyval))
| PObj (attrs : list (string * outcome pyval)) (truth : bool)
       (str_text repr_text : outcome string).

Module PyRepr.

Definition hex_digit (n : nat) : ascii :=
  if (n <? 10)%nat then ascii_of_nat (48 + n) else ascii_of_nat (87 + n).

Definition backslash : ascii := ascii_of_nat 92.

(** [width] hexadecimal digits of [n], lower case. *)
Fixpoint hex_of (width : nat) (n : N) : string :=
  match width with
  | 0 => EmptyString
  | S w => hex_of w (n / 16)%N ++ String (hex_digit (N.to_nat (n mod 16)%N)) ""
  end.

(** The characters above 127 that [str.isprintable()] refuses, as closed
    ranges of code points (Unicode 14.0, the database of CPython 3.11):
    the categories Cc, Cf, Cs, Co, Cn, Zl, Zp and Zs. *)
Definition NONPRINTABLE : list (N * N) :=
  [(128, 160); (173, 173); (888, 889); (896, 899); (907, 907); (909, 909);
   (930, 930); (1328, 1328); (1367, 1368); (1419, 1420); (1424, 1424);
   (1480, 1487); (1515, 1518); (1525, 1541); (1564, 1564); (1757, 1757);
   (1806, 1807); (1867, 1868); (1970, 1983); (2043, 2044); (2094, 2095);
   (2111, 2111); (2140, 2141); (2143, 2143); (2155, 2159); (2191, 2199);
   (2274, 2274); (2436, 2436); (2445, 2446); (2449, 2450); (2473, 2473);
   (2481, 2481); (2483, 2485); (2490, 2491); (2501, 2502); (2505, 2506);
   (2511, 2518); (2520, 2523); (2526, 2526); (2532, 2533); (2559, 2560);
   (2564, 2564); (2571, 2574); (2577, 2578); (2601, 2601); (2609, 2609);
   (2612, 2612); (2615, 2615); (2618, 2619); (2621, 2621); (2627, 2630);
   (2633, 2634); (2638, 2640); (2642, 2648); (2653, 2653); (2655, 2661);
   (2679, 2688); (2692, 2692); (2702, 2702); (2706, 2706); (2729, 2729);
   (2737, 2737); (2740, 2740); (2746, 2747); (2758, 2758); (2762, 2762);
   (2766, 2767); (2769, 2783); (2788, 2789); (2802, 2808); (2816, 2816);
   (2820, 2820); (2829, 2830); (2833, 2834); (2857, 2857); (2865, 2865);
   (2868, 2868); (2874, 2875); (2885, 2886); (2889, 2890); (2894, 2900);
   (2904, 2907); (2910, 2910); (2916, 2917); (2936, 2945); (2948, 2948);
   (2955, 2957); (2961, 2961); (2966, 2968); (2971, 2971); (2973, 2973);
   (2976, 2978); (2981, 2983); (2987, 2989); (3002, 3005); (3011, 3013);
   (3017, 3017); (3022, 3023); (3025, 3030); (3032, 3045); (3067, 3071);
   (3085, 3085); (3089, 3089); (3113, 3113); (3130, 3131); (3141, 3141);
   (3145, 3145); (3150, 3156); (3159, 3159); (3163, 3164); (3166, 3167);
   (3172, 3173); (3184, 3190); (3213, 3213); (3217, 3217); (3241, 3241);
   (3252, 3252); (3258, 3259); (3269, 3269); (3273, 3273); (3278, 3284);
   (3287, 3292); (3295, 3295); (3300, 3301); (3312, 3312); (3315, 3327);
   (3341, 3341); (3345, 3345); (3397, 3397); (3401, 3401); (3408, 3411);
   (3428, 3429); (3456, 3456); (3460, 3460); (3479, 3481); (3506, 3506);
   (3516, 3516); (3518, 3519); (3527, 3529); (3531, 3534); (3541, 3541);
   (3543, 3543); (3552, 3557); (3568, 3569); (3573, 3584); (3643, 3646);
   (3676, 3712); (3715, 3715); (3717, 3717); (3723, 3723); (3748, 3748);
   (3750, 3750); (3774, 3775); (3781, 3781); (3783, 3783); (3790, 3791);
   (3802, 3803); (3808, 3839); (3912, 3912); (3949, 3952); (3992, 3992);
   (4029, 4029); (4045, 4045); (4059, 4095); (4294, 4294); (4296, 4300);
   (4302, 4303); (4681, 4681); (4686, 4687); (4695, 4695); (4697, 4697);
   (4702, 4703); (4745, 4745); (4750, 4751); (4785, 4785); (4790, 4791);
   (4799, 4799); (4801, 4801); (4806, 4807); (4823, 4823); (4881, 4881);
   (4886, 4887); (4955, 4956); (4989, 4991); (5018, 5023); (5110, 5111);
   (5118, 5119); (5760, 5760); (5789, 5791); (5881, 5887); (5910, 5918);
   (5943, 5951); (5972, 5983); (5997, 5997); (6001, 6001); (6004, 6015);
   (6110, 6111); (6122, 6127); (6138, 6143); (6158, 6158); (6170, 6175);
   (6265, 6271); (6315, 6319); (6390, 6399); (6431, 6431); (6444, 6447);
   (6460, 6463); (6465, 6467); (6510, 6511); (6517, 6527); (6572, 6575);
   (6602, 6607); (6619, 6621); (6684, 6685); (6751, 6751); (6781, 6782);
   (6794, 6799); (6810, 6815); (6830, 6831); (6863, 6911); (6989, 6991);
   (7039, 7039); (7156, 7163); (7224, 7226); (7242, 7244); (7305, 7311);
   (7355, 7356); (7368, 7375); (7419, 7423); (7958, 7959); (7966, 7967);
   (8006, 8007); (8014, 8015); (8024, 8024); (8026, 8026); (8028, 8028);
   (8030, 8030); (8062, 8063); (8117, 8117); (8133, 8133); (8148, 8149);
   (8156, 8156); (8176, 8177); (8181, 8181); (8191, 8207); (8232, 8239);
   (8287, 8303); (8306, 8307); (8335, 8335); (8349, 8351); (8385, 8399);
   (8433, 8447); (8588, 8591); (9255, 9279); (9291, 9311); (11124, 11125);
   (11158, 11158); (11508, 11512); (11558, 11558); (11560, 11564);
   (11566, 11567); (11624, 11630); (11633, 11646); (11671, 11679);
   (11687, 11687); (11695, 11695); (11703, 11703); (11711, 11711);
   (11719, 11719); (11727, 11727); (11735, 11735); (11743, 11743);
   (11870, 11903); (11930, 11930); (12020, 12031); (12246, 12271);
   (12284, 12288); (12352, 12352); (12439, 12440); (12544, 12548);
   (12592, 12592); (12687, 12687); (12772, 12783); (12831, 12831);
   (42125, 42127); (42183, 42191); (42540, 42559); (42744, 42751);
   (42955, 42959); (42962, 42962); (42964, 42964); (42970, 42993);
   (43053, 43055); (43066, 43071); (43128, 43135); (43206, 43213);
   (43226, 43231); (43348, 43358); (43389, 43391); (43470, 43470);
   (43482, 43485); (43519, 43519); (43575, 43583); (43598, 43599);
   (43610, 43611); (43715, 43738); (43767, 43776); (43783, 43784);
   (43791, 43792); (43799, 43807); (43815, 43815); (43823, 43823);
   (43884, 43887); (44014, 44015); (44026, 44031); (55204, 55215);
   (55239, 55242); (55292, 63743); (64110, 64111); (64218, 64255);
   (64263, 64274); (64280, 64284); (64311, 64311); (64317, 64317);
   (64319, 64319); (64322, 64322); (64325, 64325); (64451, 64466);
   (64912, 64913); (64968, 64974); (64976, 65007); (65050, 65055);
   (65107, 65107); (65127, 65127); (65132, 65135); (65141, 65141);
   (65277, 65280); (65471, 65473); (65480, 65481); (65488, 65489);
   (65496, 65497); (65501, 65503); (65511, 65511); (65519, 65531);
   (65534, 65535); (65548, 65548); (65575, 65575); (65595, 65595);
   (65598, 65598); (65614, 65615); (65630, 65663); (65787, 65791);
   (65795, 65798); (65844, 65846); (65935, 65935); (65949, 65951);
   (65953, 65999); (66046, 66175); (66205, 66207); (66257, 66271);
   (66300, 66303); (66340, 66348); (66379, 66383); (66427, 66431);
   (66462, 66462); (66500, 66503); (66518, 66559); (66718, 66719);
   (66730, 66735); (66772, 66775); (66812, 66815); (66856, 66863);
   (66916, 66926); (66939, 66939); (66955, 66955); (66963, 66963);
   (66966, 66966); (66978, 66978); (66994, 66994); (67002, 67002);
   (67005, 67071); (67383, 67391); (67414, 67423); (67432, 67455);
   (67462, 67462); (67505, 67505); (67515, 67583); (67590, 67591);
   (67593, 67593); (67638, 67638); (67641, 67643); (67645, 67646);
   (67670, 67670); (67743, 67750); (67760, 67807); (67827, 67827);
   (67830, 67834); (67868, 67870); (67898, 67902); (67904, 67967);
   (68024, 68027); (68048, 68049); (68100, 68100); (68103, 68107);
   (68116, 68116); (68120, 68120); (68150, 68151); (68155, 68158);
   (68169, 68175); (68185, 68191); (68256, 68287); (68327, 68330);
   (68343, 68351); (68406, 68408); (68438, 68439); (68467, 68471);
   (68498, 68504); (68509, 68520); (68528, 68607); (68681, 68735);
   (68787, 68799); (68851, 68857); (68904, 68911); (68922, 69215);
   (69247, 69247); (69290, 69290); (69294, 69295); (69298, 69375);
   (69416, 69423); (69466, 69487); (69514, 69551); (69580, 69599);
   (69623, 69631); (69710, 69713); (69750, 69758); (69821, 69821);
   (69827, 69839); (69865, 69871); (69882, 69887); (69941, 69941);
   (69960, 69967); (70007, 70015); (70112, 70112); (70133, 70143);
   (70162, 70162); (70207, 70271); (70279, 70279); (70281, 70281);
   (70286, 70286); (70302, 70302); (70314, 70319); (70379, 70383);
   (70394, 70399); (70404, 70404); (70413, 70414); (70417, 70418);
   (70441, 70441); (70449, 70449); (70452, 70452); (70458, 70458);
   (70469, 70470); (70473, 70474); (70478, 70479); (70481, 70486);
   (70488, 70492); (70500, 70501); (70509, 70511); (70517, 70655);
   (70748, 70748); (70754, 70783); (70856, 70863); (70874, 71039);
   (71094, 71095); (71134, 71167); (71237, 71247); (71258, 71263);
   (71277, 71295); (71354, 71359); (71370, 71423); (71451, 71452);
   (71468, 71471); (71495, 71679); (71740, 71839); (71923, 71934);
   (71943, 71944); (71946, 71947); (71956, 71956); (71959, 71959);
   (71990, 71990); (71993, 71994); (72007, 72015); (72026, 72095);
   (72104, 72105); (72152, 72153); (72165, 72191); (72264, 72271);
   (72355, 72367); (72441, 72703); (72713, 72713); (72759, 72759);
   (72774, 72783); (72813, 72815); (72848, 72849); (72872, 72872);
   (72887, 72959); (72967, 72967); (72970, 72970); (73015, 73017);
   (73019, 73019); (73022, 73022); (73032, 73039); (73050, 73055);
   (73062, 73062); (73065, 73065); (73103, 73103); (73106, 73106);
   (73113, 73119); (73130, 73439); (73465, 73647); (73649, 73663);
   (73714, 73726); (74650, 74751); (74863, 74863); (74869, 74879);
   (75076, 77711); (77811, 77823); (78895, 82943); (83527, 92159);
   (92729, 92735); (92767, 92767); (92778, 92781); (92863, 92863);
   (92874, 92879); (92910, 92911); (92918, 92927); (92998, 93007);
   (93018, 93018); (93026, 93026); (93048, 93052); (93072, 93759);
   (93851, 93951); (94027, 94030); (94088, 94094); (94112, 94175);
   (94181, 94191); (94194, 94207); (100344, 100351); (101590, 101631);
   (101641, 110575); (110580, 110580); (110588, 110588); (110591, 110591);
   (110883, 110927); (110931, 110947); (110952, 110959); (111356, 113663);
   (113771, 113775); (113789, 113791); (113801, 113807); (113818, 113819);
   (113824, 118527); (118574, 118575); (118599, 118607); (118724, 118783);
   (119030, 119039); (119079, 119080); (119155, 119162); (119275, 119295);
   (119366, 119519); (119540, 119551); (119639, 119647); (119673, 119807);
   (119893, 119893); (119965, 119965); (119968, 119969); (119971, 119972);
   (119975, 119976); (119981, 119981); (119994, 119994); (119996, 119996);
   (120004, 120004); (120070, 120070); (120075, 120076); (120085, 120085);
   (120093, 120093); (120122, 120122); (120127, 120127); (120133, 120133);
   (120135, 120137); (120145, 120145); (120486, 120487); (120780, 120781);
   (121484, 121498); (121504, 121504); (121520, 122623); (122655, 122879);
   (122887, 122887); (122905, 122906); (122914, 122914); (122917, 122917);
   (122923, 123135); (123181, 123183); (123198, 123199); (123210, 123213);
   (123216, 123535); (123567, 123583); (123642, 123646); (123648, 124895);
   (124903, 124903); (124908, 124908); (124911, 124911); (124927, 124927);
   (125125, 125126); (125143, 125183); (125260, 125263); (125274, 125277);
   (125280, 126064); (126133, 126208); (126270, 126463); (126468, 126468);
   (126496, 126496); (126499, 126499); (126501, 126502); (126504, 126504);
   (126515, 126515); (126520, 126520); (126522, 126522); (126524, 126529);
   (126531, 126534); (126536, 126536); (126538, 126538); (126540, 126540);
   (126544, 126544); (126547, 126547); (126549, 126550); (126552, 126552);
   (126554, 126554); (126556, 126556); (126558, 126558); (126560, 126560);
   (126563, 126563); (126565, 126566); (126571, 126571); (126579, 126579);
   (126584, 126584); (126589, 126589); (126591, 126591); (126602, 126602);
   (126620, 126624); (126628, 126628); (126634, 126634); (126652, 126703);
   (126706, 126975); (127020, 127023); (127124, 127135); (127151, 127152);
   (127168, 127168); (127184, 127184); (127222, 127231); (127406, 127461);
   (127491, 127503); (127548, 127551); (127561, 127567); (127570, 127583);
   (127590, 127743); (128728, 128732); (128749, 128751); (128765, 128767);
   (128884, 128895); (128985, 128991); (129004, 129007); (129009, 129023);
   (129036, 129039); (129096, 129103); (129114, 129119); (129160, 129167);
   (129198, 129199); (129202, 129279); (129620, 129631); (129646, 129647);
   (129653, 129655); (129661, 129663); (129671, 129679); (129709, 129711);
   (129723, 129727); (129734, 129743); (129754, 129759); (129768, 129775);
   (129783, 129791); (129939, 129939); (129995, 130031); (130042, 131071);
   (173792, 173823); (177977, 177983); (178206, 178207); (183970, 183983);
   (191457, 194559); (195102, 196607); (201547, 917759); (918000, 1114111)]%N.

Definition printable (cp : N) : bool :=
  negb (existsb (fun r => (fst r <=? cp)%N && (cp <=? snd r)%N) NONPRINTABLE).

(** One character [ch] of [repr(s)], inside quotes [q]. *)
Definition escape_char (q : ascii) (ch : string) : string :=
  let cp := PyStr.code_point ch in
  if (cp =? 92)%N then String backslash (String backslash "")
  else if (cp =? N_of_ascii q)%N then String backslash (String q "")
  else if (cp =? 9)%N then String backslash "t"
  else if (cp =? 10)%N then String backslash "n"
  else if (cp =? 13)%N then String backslash "r"
  else if ((cp <? 32) || (cp =? 127))%N then String backslash ("x" ++ hex_of 2 cp)
  else if (cp <? 127)%N then ch
  else if printable cp then ch
  else if (cp <=? 255)%N then String backslash ("x" ++ hex_of 2 cp)
  else if (cp <=? 65535)%N then String backslash ("u" ++ hex_of 4 cp)
  else String backslash ("U" ++ hex_of 8 cp).

Definition escape (q : ascii) (s : string) : string :=
  String.concat "" (map (escape_char q) (PyStr.chars s)).

Definition has_char (c : ascii) (s : string) : bool :=
  existsb (Ascii.eqb c) (list_ascii_of_string s).

(** [repr(s)] of a string: single quotes, unless the text holds a single
    quote and no double quote. *)
Definition repr_str (s : string) : string :=
  let sq := "'"%char in
  let dq := ascii_of_nat 34 in
  let q := if has_char sq s && negb (has_char dq s) then dq else sq in
  String q (escape q s ++ String q "").

(** The texts of the elements of a container, left to right, up to the
    first one that raises. *)
Definition all_texts {A : Type} (text : A -> outcome string) (l : list A)
  : outcome (list string) :=
  fold_right
    (fun x rest =>
       match text x with
       | Return s =>
           match rest with
           | Return ss => Return (s :: ss)
           | Raise e => Raise e
           end
       | Raise e => Raise e
       end)
    (Return []) l.

Definition enclose (open close : string) (texts : outcome (list string))
  : outcome string :=
  match texts with
  | Return ss => Return (open ++ PyStr.join ", " ss ++ close)
  | Raise e => Raise e
  end.

(** [repr(v)] *)
Fixpoint py_repr (v : pyval) : outcome string :=
  match v with
  | PNone => Return "None"
  | PBool true => Return "True"
  | PBool false => Return "False"
  | PInt z => Return (PyStr.of_Z z)
  | PStr s => Return (repr_str s)
  | PList l => enclose "[" "]" (all_texts py_repr l)
  | PTuple l =>
      match l with
      | [x] => enclose "(" ",)" (all_texts py_repr [x])
      | _ => enclose "(" ")" (all_texts py_repr l)
      end
  | PDict d =>
      enclose "{" "}"
        (all_texts
           (fun kv =>
              let '(k, x) := kv in
              match py_repr x with
              | Return s => Return (repr_str k ++ ": " ++ s)
              | Raise e => Raise e
              end)
           d)
  | PObj _ _ _ r => r
  end.

(** [str(v)] *)
Definition py_str (v : pyval) : outcome string :=
  match v with
  | PStr s => Return s
  | PObj _ _ s _ => s
  | _ => py_repr v
  end.

End PyRepr.

(** [bool(v)] *)
Definition truthy (v : pyval) : bool :=
  match v with
  | PNone => false
  | PBool b => b
  | PInt z => negb (Z.eqb z 0)
  | PStr s => negb (PyStr.is_empty s)
  | PList l | PTuple l => match l with [] => false | _ => true end
  | PDict d => match d with [] => false | _ => true end
  | PObj _ t _ _ => t
  end.

(** [a or b], when [b] is a value at hand. *)
Definition py_or (a b : pyval) : pyval := if truthy a then a else b.

(** Reading the attribute [name] of [v], for the names the program asks for
    ([text], [content], [candidates], [outputs]): [Some x] when there is
    one, [None] when there is none (no built-in type has one of them) or
    when its accessor raises [AttributeError], which is how [hasattr] and
    [getattr] with a default read an absent attribute; any other exception
    of the accessor is raised. *)
Definition py_getattr (v : pyval) (name : string) : outcome (option pyval) :=
  match v with
  | PObj attrs _ _ _ =>
      match dict_get name attrs with
      | Some (Return x) => Return (Some x)
      | Some (Raise e) =>
          if String.eqb (exn_class e) "AttributeError" then Return None
          else Raise e
      | None => Return None
      end
  | _ => Return None
  end.

(** An absent result as [None]: [d.get(k)] and [getattr(v, k, None)]. *)
Definition or_none (o : option pyval) : pyval :=
  match o with Some v => v | None => PNone end.

(** The elements of a value for which [isinstance(v, (list, tuple))]. *)
Definition seq_items (v : pyval) : option (list pyval) :=
  match v with
  | PList l | PTuple l => Some l
  | _ => None
  end.

(** ** Runs: outcomes with events *)

(** The calling conventions [chat] tries on the client, in its order. *)
Inductive convention : Type :=
| ModelsGenerateContent
| ClientGenerate
| ClientPredict
| DirectCall.

Inductive event : Type :=
| LogInfo (text : string)
| LogException (text : string)
| Generate (conv : convention) (model prompt : string).

Definition run (A : Type) : Type := (outcome A * list event)%type.

Definition ret {A} (a : A) : run A := (Return a, []).

Definition raise {A} (e : exn) : run A := (Raise e, []).

Definition emit (ev : event) : run unit := (Return tt, [ev]).

(** An operation of the runtime that performs no event. *)
Definition lift {A} (o : outcome A) : run A := (o, []).

Definition bind {A B} (m : run A) (f : A -> run B) : run B :=
  match m with
  | (Return a, t) => let '(o, t') := f a in (o, (t ++ t')%list)
  | (Raise e, t) => (Raise e, t)
  end.

(** [try: m  except Exception as e: h e] *)
Definition try_except {A} (m : run A) (h : exn -> run A) : run A :=
  match m with
  | (Raise e, t) => let '(o, t') := h e in (o, (t ++ t')%list)
  | r => r
  end.

Notation "x <- m ;; k" := (bind m (fun x => k))
  (at level 61, m at next level, right associativity).
Notation "m ;;; k" := (bind m (fun _ => k))
  (at level 61, right associativity).

(** ** The response normaliser *)

(** The strings of a list, when every element is a [str]. *)
Fixpoint as_strings (l : list pyval) : option (list string) :=
  match l with
  | [] => Some []
  | PStr s :: l' =>
      match as_strings l' with
      | Some ss => Some (s :: ss)
      | None => None
      end
  | _ :: _ => None
  end.

(** [sep.join(l)]: a [TypeError] when an element is not a [str]. *)
Definition str_join (sep : string) (l : list pyval) : run string :=
  match as_strings l with
  | Some ss => ret (PyStr.join sep ss)
  | None => raise (TypeError "sequence item: expected str instance")
  end.

(** [" ".join(p for p in parts if p)] *)
Definition join_nonempty (parts : list pyval) : run string :=
  str_join " " (filter truthy parts).

(** [d.get(first) or d.get(second) or ""] on a mapping. *)
Definition dict_part (d : list (string * pyval)) (first second : string) : pyval :=
  py_or (py_or (or_none (dict_get first d)) (or_none (dict_get second d)))
        (PStr "").

(** [getattr(v, first, None) or getattr(v, second, None) or ""]: the second
    attribute is read only when the first is false. *)
Definition object_part (v : pyval) (first second : string) : run pyval :=
  a <- lift (py_getattr v first) ;;
  if truthy (or_none a) then ret (or_none a)
  else
    b <- lift (py_getattr v second) ;;
    ret (py_or (or_none b) (PStr "")).

(** One run of a loop that appends what [f] gives for each element. *)
Fixpoint collect {A B : Type} (f : A -> run (list B)) (l : list A) : run (list B) :=
  match l with
  | [] => ret []
  | x :: l' =>
      ys <- f x ;;
      zs <- collect f l' ;;
      ret (ys ++ zs)%list
  end.

(** What the loop over [candidates] appends for one candidate [c]. *)
Definition candidate_part (c : pyval) : run (list pyval) :=
  match c with
  | PDict d => ret [dict_part d "content" "text"]
  | _ => p <- object_part c "content" "text" ;; ret [p]
  end.

(** What the inner loop over [out["content"]] appends for one [item]. *)
Definition content_item_part (item : pyval) : run (list pyval) :=
  match item with
  | PDict d => ret [dict_part d "text" "content"]
  | _ => s <- lift (PyRepr.py_str item) ;; ret [PStr s]
  end.

(** What the loop over [outputs] appends for one output [out]. *)
Definition output_parts (out : pyval) : run (list pyval) :=
  match out with
  | PDict d =>
      match dict_get "content" d with
      | Some (PList items) => collect content_item_part items
      | _ => ret [dict_part d "text" "content"]
      end
  | _ => p <- object_part out "text" "content" ;; ret [p]
  end.

(** The loop over [("text", "reply", "content")] on a mapping: the first
    value that is a string and is not blank, stripped. *)
Fixpoint first_text_field (d : list (string * pyval)) (names : list string)
  : option string :=
  match names with
  | [] => None
  | key :: names' =>
      match dict_get key d with
      | Some (PStr val) =>
          if PyStr.is_empty (PyStr.strip val) then first_text_field d names'
          else Some (PyStr.strip val)
      | _ => first_text_field d names'
      end
  end.

(** The [outputs] step: the attribute is read outside the inner [try], the
    loops and the join inside it.  [Some s] when the step returns [s],
    [None] when control falls through to the next step. *)
Definition from_outputs (response : pyval) : run (option string) :=
  o <- lift (py_getattr response "outputs") ;;
  match o with
  | Some outputs =>
      try_except
        (match seq_items outputs with
         | Some outs =>
             extracted <- collect output_parts outs ;;
             s <- join_nonempty extracted ;;
             ret (Some (PyStr.strip s))
         | None => ret None
         end)
        (fun _ => ret None)
  | None => ret None
  end.

(** The last two steps: a plain mapping, then [str(response).strip()]. *)
Definition from_mapping (response : pyval) : run string :=
  match
    match response with
    | PDict d => first_text_field d ["text"; "reply"; "content"]
    | _ => None
    end
  with
  | Some s => ret s
  | None => text <- lift (PyRepr.py_str response) ;; ret (PyStr.strip text)
  end.

(** The body of the outer [try] of [_extract_text_from_gemini_response]. *)
Definition extract_try_body (response : pyval) : run string :=
  t <- lift (py_getattr response "text") ;;
  match t with
  | Some (PStr text) => ret (PyStr.strip text)
  | _ =>
      c <- lift (py_getattr response "candidates") ;;
      let rest : run string :=
        r <- from_outputs response ;;
        match r with
        | Some s => ret s
        | None => from_mapping response
        end in
      match c with
      | Some candidates =>
          match seq_items candidates with
          | Some (c :: cs) =>
              parts <- collect candidate_part (c :: cs) ;;
              s <- join_nonempty parts ;;
              ret (PyStr.strip s)
          | _ => rest
          end
      | None => rest
      end
  end.

(** The handler of the outer [try] logs and returns [str(response)], with
    nothing around it: what that raises is raised by the function. *)
Definition _extract_text_from_gemini_response (response : pyval) : run string :=
  try_except (extract_try_body response)
    (fun _ =>
       emit (LogException
               "Error extracting text from Gemini response; falling back to str(response).") ;;;
       lift (PyRepr.py_str response)).
(** ** The request handler *)

(** The text-generation client: which calling conventions it exposes, and
    what a call returns or raises. *)
Record client_t : Type := Client
  { has_models : bool;
    models_has_generate_content : bool;
    has_generate : bool;
    has_predict : bool;
    invoke : convention -> string -> string -> outcome pyval }.

(** The state fixed when the process starts: the client, if one could be
    configured, and the model name. *)
Record server : Type := Server
  { client : option client_t;
    DEFAULT_MODEL : string }.

(** What a view returns: [jsonify(body), status]. *)
Record http_response : Type := Resp
  { body : dict pyval;
    status : Z }.

Definition newline : string := String (ascii_of_nat 10) EmptyString.

Definition SYSTEM_PROMPT : string :=
  "You are " ++ PyStr.dquote ++ "Nichirin" ++ PyStr.dquote ++
  " — a warm, conversational AI who speaks like a real person. " ++
  "Keep responses concise (20–60 seconds spoken). Use natural tone and spoken phrasing. " ++
  "End politely, like 'Anything else you'd like to ask?'".

Definition NOT_CONFIGURED_REPLY : string :=
  "Gemini backend is not configured on this server. " ++
  "I can still answer a set of predefined questions. " ++
  "For other queries, please configure GEMINI_API_KEY on the server.".

Definition EMPTY_RESPONSE_REPLY : string :=
  "Received an empty response from the language model. " ++
  "Please check the model configuration or the API key.".

Definition is_str (s : string) (v : pyval) : bool :=
  match v with PStr s' => String.eqb s s' | _ => false end.

(** [needle in container] for a string [needle]. *)
Definition py_contains (needle : string) (container : pyval) : run bool :=
  match container with
  | PDict d => ret (dict_has needle d)
  | PStr s => ret (PyStr.is_substring needle s)
  | PList l | PTuple l => ret (existsb (is_str needle) l)
  | _ => raise (TypeError "argument is not iterable")
  end.

(** [container[key]] for a string [key]. *)
Definition py_getitem (container : pyval) (key : string) : run pyval :=
  match container with
  | PDict d =>
      match dict_get key d with
      | Some v => ret v
      | None => raise (Exn "KeyError" (PyRepr.repr_str key))
      end
  | PStr _ | PList _ | PTuple _ => raise (TypeError "indices must be integers")
  | _ => raise (TypeError "object is not subscriptable")
  end.

(** [v.strip()]: only a string has the method. *)
Definition py_strip (v : pyval) : run string :=
  match v with
  | PStr s => ret (PyStr.strip s)
  | _ => raise (AttributeError "object has no attribute 'strip'")
  end.

Definition error_response (text : string) (code : Z) : http_response :=
  Resp [("error", PStr text)] code.

Definition reply_response (text : string) : http_response :=
  Resp [("reply", PStr text)] 200%Z.

(** The first part of [chat], up to the test of an empty message: the
    text of the user's message, or the response the handler returns at once. *)
Definition read_user_message (data : pyval) : run (string + http_response) :=
  if negb (truthy data) then ret (inr (error_response "No JSON body provided" 400%Z))
  else
    let finish (user_message : string) : run (string + http_response) :=
      if PyStr.is_empty user_message
      then ret (inr (error_response "Empty message provided" 400%Z))
      else ret (inl user_message) in
    has_message <- py_contains "message" data ;;
    message <- (if has_message : bool
                then v <- py_getitem data "message" ;; ret (Some v)
                else ret None) ;;
    match message with
    | Some (PStr s) => finish (PyStr.strip s)
    | _ =>
        has_messages <- py_contains "messages" data ;;
        if has_messages : bool then
          msgs <- py_getitem data "messages" ;;
          match msgs with
          | PStr s => finish (PyStr.strip s)
          | PList (m :: ms) =>
              match last (m :: ms) PNone with
              | PStr s => finish (PyStr.strip s)
              | PDict d =>
                  s <- py_strip
                         (py_or (py_or (py_or (or_none (dict_get "content" d))
                                              (or_none (dict_get "message" d)))
                                       (or_none (dict_get "text" d)))
                                (PStr "")) ;;
                  finish s
              | _ => finish ""
              end
          | _ => finish ""
          end
        else ret (inr (error_response "No 'message' or 'messages' provided" 400%Z))
    end.

(** The convention [chat] selects on a client. *)
Definition select_convention (c : client_t) : convention :=
  if has_models c && models_has_generate_content c then ModelsGenerateContent
  else if has_generate c then ClientGenerate
  else if has_predict c then ClientPredict
  else DirectCall.

(** One call to the client: the event, then what the client does. *)
Definition call_client (c : client_t) (conv : convention) (model prompt : string)
  : run pyval :=
  (invoke c conv model prompt, [Generate conv model prompt]).

(** [(reply_text[:200] + "...") if len(reply_text) > 200 else reply_text] *)
Definition truncated (reply_text : string) : string :=
  if (200 <? PyStr.len reply_text)%nat
  then PyStr.take 200 reply_text ++ "..."
  else reply_text.

(** The prompt of one turn: the f-string of [chat]. *)
Definition prompt_for (user_message : string) : string :=
  SYSTEM_PROMPT ++ newline ++ "User: " ++ user_message ++ newline ++ "Assistant:".

Section Handler.
Variable ratio : string -> string -> Q.
Variable srv : server.

(** The second part of [chat]: the answer to a message that was read. *)
Definition reply_to (user_message : string) : run http_response :=
  emit (LogInfo ("Received message: " ++ user_message)) ;;;
  let without_static_reply : run http_response :=
    match client srv with
    | None =>
        emit (LogInfo
                "Gemini client not configured; returning helpful fallback message.") ;;;
        ret (reply_response NOT_CONFIGURED_REPLY)
    | Some c =>
        try_except
          (response <- call_client c (select_convention c)
                                   (DEFAULT_MODEL srv) (prompt_for user_message) ;;
           reply_text <- _extract_text_from_gemini_response response ;;
           let reply_text :=
             if PyStr.is_empty reply_text then EMPTY_RESPONSE_REPLY
             else reply_text in
           emit (LogInfo ("Gemini reply (truncated): " ++ truncated reply_text)) ;;;
           ret (reply_response reply_text))
          (fun e =>
             emit (LogException "Error while calling Gemini") ;;;
             ret (error_response ("Gemini error: " ++ exn_text e) 500%Z))
    end in
  match match_predefined_answer ratio user_message with
  | Some static_reply =>
      if PyStr.is_empty static_reply then without_static_reply
      else
        emit (LogInfo "Returning predefined reply") ;;;
        ret (reply_response static_reply)
  | None => without_static_reply
  end.

Definition chat (data : pyval) : run http_response :=
  parsed <- read_user_message data ;;
  match parsed with
  | inr response => ret response
  | inl user_message => reply_to user_message
  end.
End Handler.

(** ** The similarity ratio of difflib *)

(** [SequenceMatcher(None, a, b).ratio()] as CPython's difflib computes it
    when no element is junk ([isjunk] is [None], and the automatic junk
    heuristic only starts at 200 elements of [b]; the keys of the table are
    far shorter; with no junk the two extension loops of
    [find_longest_match] have nothing to add).  The ratio is the exact
    rational [2 * M / T].  The program holds its rounding to a float: two
    ratios, or a ratio and the literal [0.55], compare the same way rounded
    as exact, as long as [T] stays below 2^48 characters. *)
Module Difflib.

Section Blocks.
Variables a b : list string.

(** The row [newj2len] for the element [ai] of [a], from the row
    [j2len] of the element before: entry [j] is the length of the
    longest match that ends at [ai] and [b[j]], inside [blo, bhi). *)
Fixpoint next_row (ai : string) (blo bhi j : nat) (bs : list string)
         (diag : nat) (j2len : list nat) : list nat :=
  match bs with
  | [] => []
  | bj :: bs' =>
      let k := if ((blo <=? j) && (j <? bhi))%nat && String.eqb ai bj
               then S diag else 0 in
      k :: next_row ai blo bhi (S j) bs' (hd 0 j2len) (tl j2len)
  end.

(** The update of [(besti, bestj, bestsize)] along one row. *)
Fixpoint scan_row (i j : nat) (row : list nat) (best : nat * nat * nat)
  : nat * nat * nat :=
  match row with
  | [] => best
  | k :: row' =>
      let '(_, _, bestsize) := best in
      scan_row i (S j) row'
               (if (bestsize <? k)%nat then (i + 1 - k, j + 1 - k, k) else best)
  end.

Fixpoint longest_loop (i : nat) (rest : list string) (blo bhi : nat)
         (j2len : list nat) (best : nat * nat * nat) : nat * nat * nat :=
  match rest with
  | [] => best
  | ai :: rest' =>
      let row := next_row ai blo bhi 0 b 0 j2len in
      longest_loop (S i) rest' blo bhi row (scan_row i 0 row best)
  end.

(** [find_longest_match(alo, ahi, blo, bhi)]: [(i, j, k)]. *)
Definition find_longest_match (alo ahi blo bhi : nat) : nat * nat * nat :=
  longest_loop alo (firstn (ahi - alo) (skipn alo a)) blo bhi [] (alo, blo, 0).

(** The sum of the sizes of the blocks [get_matching_blocks] collects
    from the range [(alo, ahi, blo, bhi)] and the ranges it queues. *)
Fixpoint matches (fuel alo ahi blo bhi : nat) : nat :=
  match fuel with
  | 0 => 0
  | S fuel' =>
      let '(i, j, k) := find_longest_match alo ahi blo bhi in
      if (k =? 0)%nat then 0
      else
        k + (if ((alo <? i) && (blo <? j))%nat
             then matches fuel' alo i blo j else 0)
          + (if ((i + k <? ahi) && (j + k <? bhi))%nat
             then matches fuel' (i + k) ahi (j + k) bhi else 0)
  end.
End Blocks.

(** The sequences compared are the characters of the two strings. *)
Definition ratio (a b : string) : Q :=
  let la := PyStr.chars a in
  let lb := PyStr.chars b in
  let total := (List.length la + List.length lb)%nat in
  if (total =? 0)%nat then 1%Q
  else Qmake (Z.of_nat (2 * matches la lb (S (List.length la))
                                    0 (List.length la) 0 (List.length lb)))
             (Pos.of_nat total).

End Difflib.

(** ** Predicates and values the properties are stated with *)

(** [post P m]: when the run [m] returns, it returns a value in [P]. *)
Definition post {A : Type} (P : A -> Prop) (m : run A) : Prop :=
  match fst m with
  | Return a => P a
  | Raise _ => True
  end.

(** [silent m]: the run [m] performs no event. *)
Definition silent {A : Type} (m : run A) : Prop := snd m = [].

(** What [read_user_message] can return: a message that is not empty, or a
    response with an [error] field and status 400. *)
Definition read_result_ok (r : string + http_response) : Prop :=
  match r with
  | inl user_message => user_message <> ""
  | inr response => exists text, response = error_response text 400%Z
  end.

(** A response body that has the one field [reply], or the one field [error]. *)
Definition reply_only (r : http_response) : Prop :=
  (exists text, body r = [("reply", PStr text)]) /\ dict_has "error" (body r) = false.

Definition error_only (r : http_response) : Prop :=
  (exists text, body r = [("error", PStr text)]) /\ dict_has "reply" (body r) = false.

(** For the bounds of [find_longest_match]: the best block so far starts
    at [alo] or later and ends at [hi] or before, in [a]. *)
Definition inside (alo hi : nat) (best : nat * nat * nat) : Prop :=
  let '(i, _, k) := best in alo <= i /\ i + k <= hi.

(** A response whose candidate holds structured content, not text, and
    whose [str()] is padded: joining the parts raises a [TypeError]. *)
Definition structured_candidates : pyval :=
  PObj [("candidates",
         Return (PList [PDict [("content",
                                PDict [("parts",
                                        PList [PDict [("text", PStr "Hi")]])])]]))]
       true (Return " candidates=1 ") (Return "<Response>").

(** Servers for concrete runs: without a client, with a client whose call
    raises, and with a client that answers. *)
Definition unconfigured_server : server := Server None "gemini-2.0-flash".

Definition failing_client : client_t :=
  Client true true false false
         (fun _ _ _ => Raise (Exn "ServerError" "503 UNAVAILABLE")).

Definition answering_client : client_t :=
  Client true true false false
         (fun _ _ _ =>
            Return (PObj [("text", Return (PStr " Sunny, I would guess. "))]
                         true (Return "<Response>") (Return "<Response>"))).

Definition failing_server : server := Server (Some failing_client) "gemini-2.0-flash".

Definition answering_server : server :=
  Server (Some answering_client) "gemini-2.0-flash".

(** ** Start-up configuration *)

(** The module-level code of [app.py] that runs once, at import: it reads
    the credential and the model name from the environment (as it is after
    [load_dotenv()]) and creates the client when it can.  [genai] is the
    SDK when its import succeeded: its constructor [genai.Client(api_key=k)],
    which returns a client or raises. *)

Inductive startup_event : Type :=
| LogWarning (text : string)
| CreateClient (api_key : string)
| LogCreateException (text : string).

(** [os.getenv(name)] *)
Definition getenv (env : dict string) (name : string) : option string :=
  dict_get name env.

(** [bool(v)] for [v] a string or [None]. *)
Definition opt_truthy (o : option string) : bool :=
  match o with
  | Some s => negb (PyStr.is_empty s)
  | None => false
  end.

(** [a or b] for strings or [None]. *)
Definition opt_or (a b : option string) : option string :=
  if opt_truthy a then a else b.

Definition GEMINI_API_KEY (env : dict string) : option string :=
  opt_or (opt_or (getenv env "GEMINI_API_KEY") (getenv env "GOOGLE_API_KEY"))
         (getenv env "GOOGLE_CLOUD_API_KEY").

Definition module_init (genai : option (string -> outcome client_t))
           (env : dict string) : server * list startup_event :=
  let key := GEMINI_API_KEY env in
  let warning :=
    match genai with
    | Some _ =>
        if opt_truthy key then []
        else [LogWarning "GEMINI_API_KEY not set; Gemini calls will fail until set."]
    | None => []
    end in
  let '(client, creation) :=
    match genai, key with
    | Some new_client, Some k =>
        if PyStr.is_empty k then (None, [])
        else
          match new_client k with
          | Return c => (Some c, [CreateClient k])
          | Raise _ =>
              (None,
               [CreateClient k;
                LogCreateException
                  "Failed to create genai.Client; continuing without Gemini client."])
          end
    | _, _ => (None, [])
    end in
  (Server client
          match getenv env "GEMINI_MODEL" with
          | Some model => model
          | None => "gemini-2.0-flash"
          end,
   (warning ++ creation)%list).

(** The calls to the client among the events of a run. *)
Definition is_call (ev : event) : bool :=
  match ev with
  | Generate _ _ _ => true
  | _ => false
  end.

Definition calls (t : list event) : list event := filter is_call t.

(** The values of the built-in types other than [str]: [None], booleans,
    integers, lists, tuples and mappings. *)
Definition is_builtin_container_or_scalar (v : pyval) : bool :=
  match v with
  | PStr _ | PObj _ _ _ _ => false
  | _ => true
  end.

(** Some candidate, a mapping, yields a part that is true and is not a
    string. *)
Definition has_untextual_part (candidates : list pyval) : Prop :=
  exists d,
    In (PDict d) candidates /\
    truthy (dict_part d "content" "text") = true /\
    forall s, dict_part d "content" "text" <> PStr s.

(** Every element is a mapping. *)
Definition all_mappings (l : list pyval) : Prop :=
  forall v, In v l -> exists d, v = PDict d.

(** The values on which [in] raises: [None], booleans, numbers, and an
    object that has none of the container methods. *)
Definition not_a_container (v : pyval) : bool :=
  match v with
  | PNone | PBool _ | PInt _ | PObj _ _ _ _ => true
  | _ => false
  end.

(** A [messages] value the handler looks for a text in: a string, or a
    list whose last element is a string or a mapping. *)
Definition readable_messages (v : pyval) : bool :=
  match v with
  | PStr _ => true
  | PList l =>
      match last l PNone with
      | PStr _ | PDict _ => true
      | _ => false
      end
  | _ => false
  end.

(** The names the credential is looked up under, in order. *)
Definition API_KEY_NAMES : list string :=
  ["GEMINI_API_KEY"; "GOOGLE_API_KEY"; "GOOGLE_CLOUD_API_KEY"].

Section HandlerCases.
Variable ratio : string -> string -> Q.
Variable srv : server.

(** The runs of [chat], one case for each way through the handler. *)
Inductive chat_case (data : pyval) : run http_response -> Prop :=
| ReadRaises (e : exn) :
    read_user_message data = (Raise e, []) ->
    chat_case data (Raise e, [])
| Rejected (text : string) :
    read_user_message data = (Return (inr (error_response text 400%Z)), []) ->
    chat_case data (Return (error_response text 400%Z), [])
| Canned (user_message answer : string) :
    read_user_message data = (Return (inl user_message), []) ->
    match_predefined_answer ratio user_message = Some answer ->
    chat_case data
      (Return (reply_response answer),
       [LogInfo ("Received message: " ++ user_message);
        LogInfo "Returning predefined reply"])
| Unconfigured (user_message : string) :
    read_user_message data = (Return (inl user_message), []) ->
    match_predefined_answer ratio user_message = None ->
    client srv = None ->
    chat_case data
      (Return (reply_response NOT_CONFIGURED_REPLY),
       [LogInfo ("Received message: " ++ user_message);
        LogInfo "Gemini client not configured; returning helpful fallback message."])
| CallFailed (user_message : string) (c : client_t) (e : exn) :
    read_user_message data = (Return (inl user_message), []) ->
    match_predefined_answer ratio user_message = None ->
    client srv = Some c ->
    invoke c (select_convention c) (DEFAULT_MODEL srv) (prompt_for user_message)
    = Raise e ->
    chat_case data
      (Return (error_response ("Gemini error: " ++ exn_text e) 500%Z),
       [LogInfo ("Received message: " ++ user_message);
        Generate (select_convention c) (DEFAULT_MODEL srv) (prompt_for user_message);
        LogException "Error while calling Gemini"])
| Answered (user_message : string) (c : client_t) (response : pyval)
           (s : string) (t : list event) :
    read_user_message data = (Return (inl user_message), []) ->
    match_predefined_answer ratio user_message = None ->
    client srv = Some c ->
    invoke c (select_convention c) (DEFAULT_MODEL srv) (prompt_for user_message)
    = Return response ->
    _extract_text_from_gemini_response response = (Return s, t) ->
    chat_case data
      (Return (reply_response (if PyStr.is_empty s then EMPTY_RESPONSE_REPLY else s)),
       (LogInfo ("Received message: " ++ user_message)
        :: Generate (select_convention c) (DEFAULT_MODEL srv) (prompt_for user_message)
        :: t ++
        [LogInfo ("Gemini reply (truncated): " ++
                  truncated (if PyStr.is_empty s then EMPTY_RESPONSE_REPLY else s))])%list)
| NormaliseFailed (user_message : string) (c : client_t) (response : pyval)
                  (e : exn) (t : list event) :
    read_user_message data = (Return (inl user_message), []) ->
    match_predefined_answer ratio user_message = None ->
    client srv = Some c ->
    invoke c (select_convention c) (DEFAULT_MODEL srv) (prompt_for user_message)
    = Return response ->
    _extract_text_from_gemini_response response = (Raise e, t) ->
    chat_case data
      (Return (error_response ("Gemini error: " ++ exn_text e) 500%Z),
       (LogInfo ("Received message: " ++ user_message)
        :: Generate (select_convention c) (DEFAULT_MODEL srv) (prompt_for user_message)
        :: t ++ [LogException "Error while calling Gemini"])%list).
End HandlerCases.


(** A response that cannot be printed: reading its [text] raises, and so
    does its [__str__]. *)
Definition unprintable_response : pyval :=
  PObj [("text", Raise (Exn "RuntimeError" "stream closed"))]
       true (Raise (Exn "RuntimeError" "no text form")) (Return "<Response>").

(** Two characters that are the same, or the two cases of one ASCII
    letter. *)
Definition same_ascii_letter (c1 c2 : ascii) : bool :=
  let n1 := nat_of_ascii c1 in
  let n2 := nat_of_ascii c2 in
  Ascii.eqb c1 c2
  || (((65 <=? n1) && (n1 <=? 90)) && (n2 =? n1 + 32))%nat
  || (((65 <=? n2) && (n2 <=? 90)) && (n1 =? n2 + 32))%nat.

(** Two texts that differ at most in the case of ASCII letters. *)
Fixpoint same_up_to_ascii_case (a b : string) : bool :=
  match a, b with
  | EmptyString, EmptyString => true
  | String c1 a', String c2 b' => same_ascii_letter c1 c2 && same_up_to_ascii_case a' b'
  | _, _ => false
  end.

(** What the loop over the candidates appends for a candidate that is a
    mapping. *)
Definition mapping_part (v : pyval) : pyval :=
  match v with
  | PDict d => dict_part d "content" "text"
  | _ => PNone
  end.

(** No white-space character begins with the byte [c]. *)
Definition not_space_lead (c : ascii) : bool :=
  forallb (fun w => match w with
                    | String a _ => negb (Ascii.eqb a c)
                    | EmptyString => true
                    end)
          PyStr.SPACES.

(** * Properties *)

(** One step through a run, by the rules for [ret], [raise] and [bind] of
    the predicate at hand, with a case split at each test. *)
Ltac run_step lemma_ret lemma_raise lemma_bind :=
  match goal with
  | |- _ (ret _) => apply lemma_ret
  | |- _ (raise _) => apply lemma_raise
  | |- _ (bind _ _) => apply lemma_bind; intros
  | |- _ (if ?b then _ else _) => destruct b eqn:?
  | |- _ (match ?x with _ => _ end) => destruct x eqn:?
  end.

(** ** Strings *)

Module PyStrFacts.
Import PyStr.

Lemma prefix_app (k s : string) :
  prefix k s = true <-> exists q, s = k ++ q.
Proof.
  revert s; induction k as [|a k IH]; intros s.
  - split; [intros _; now exists s | intros _; now destruct s].
  - destruct s as [|b s]; simpl.
    + split; [discriminate | intros [q Hq]; discriminate].
    + destruct (ascii_dec a b) as [->|Hne].
      * rewrite IH. split; intros [q Hq]; exists q; congruence.
      * split; [discriminate | intros [q Hq]; congruence].
Qed.

Lemma is_substring_occurs (k s : string) :
  is_substring k s = true <-> occurs_in k s.
Proof.
  unfold occurs_in. induction s as [|c s IH].
  - change (is_substring k "") with (prefix k "" || false).
    rewrite orb_false_r, prefix_app. split.
    + intros [q Hq]. now exists "", q.
    + intros [p [q Hq]]. destruct p; simpl in Hq; [now exists q | discriminate].
  - change (is_substring k (String c s))
      with (prefix k (String c s) || is_substring k s).
    rewrite orb_true_iff, prefix_app, IH. split.
    + intros [[q Hq] | [p [q Hq]]].
      * now exists "", q.
      * exists (String c p), q. simpl. now rewrite Hq.
    + intros [p [q Hq]]. destruct p as [|c' p]; simpl in Hq.
      * left. now exists q.
      * right. exists p, q. congruence.
Qed.

Lemma is_substring_not_occurs (k s : string) :
  is_substring k s = false <-> ~ occurs_in k s.
Proof.
  rewrite <- is_substring_occurs. destruct (is_substring k s); split; intuition congruence.
Qed.

Lemma is_empty_true (s : string) : is_empty s = true <-> s = "".
Proof. destruct s; simpl; split; congruence. Qed.

Lemma is_empty_false (s : string) : is_empty s = false <-> s <> "".
Proof. destruct s; simpl; split; congruence. Qed.

Lemma lower_empty (s : string) : lower s = "" <-> s = "".
Proof. destruct s; simpl; split; congruence. Qed.

Lemma length_append (a b : string) :
  String.length (a ++ b) = String.length a + String.length b.
Proof. induction a as [|c a IH]; simpl; [reflexivity | now rewrite IH]. Qed.

Lemma append_assoc (a b c : string) : (a ++ b) ++ c = a ++ (b ++ c).
Proof. induction a as [|x a IH]; simpl; [reflexivity | now rewrite IH]. Qed.

Lemma append_inv_head (a b c : string) : a ++ b = a ++ c -> b = c.
Proof. induction a as [|x a IH]; simpl; [auto | intros [= H]; auto]. Qed.

Lemma append_empty (a b : string) : a ++ b = "" -> a = "" /\ b = "".
Proof. destruct a; simpl; [auto | discriminate]. Qed.

(** *** White space *)

Lemma strip_prefix_app (w s r : string) :
  strip_prefix w s = Some r <-> s = w ++ r.
Proof.
  revert s. induction w as [|a w IH]; intros s; simpl.
  - split; [intros [= ->] | intros ->]; reflexivity.
  - destruct s as [|b s]; [split; discriminate|].
    destruct (Ascii.eqb a b) eqn:E.
    + apply Ascii.eqb_eq in E. subst b. rewrite IH.
      split; [intros -> | intros [= ->]]; reflexivity.
    + split; [discriminate|]. intros [= -> _].
      rewrite Ascii.eqb_refl in E. discriminate.
Qed.

Lemma skip_any_some (ws : list string) (s r : string) :
  skip_any ws s = Some r -> exists w, In w ws /\ s = w ++ r.
Proof.
  induction ws as [|w ws IH]; simpl; [discriminate|].
  destruct (strip_prefix w s) as [r'|] eqn:E.
  - intros [= <-]. exists w. split; [now left | now apply strip_prefix_app].
  - intros H. destruct (IH H) as [w' [Hin Hs]]. exists w'. auto.
Qed.

Lemma skip_any_none (ws : list string) (s : string) :
  skip_any ws s = None <-> forall w, In w ws -> forall r, s <> w ++ r.
Proof.
  induction ws as [|w ws IH]; simpl.
  - split; [intros _ w [] | reflexivity].
  - destruct (strip_prefix w s) as [r'|] eqn:E.
    + split; [discriminate|]. intros H. apply strip_prefix_app in E.
      exfalso. exact (H w (or_introl eq_refl) r' E).
    + rewrite IH. split.
      * intros H w' [<-|Hin] r Hr; [|exact (H w' Hin r Hr)].
        apply strip_prefix_app in Hr. congruence.
      * intros H w' Hin. apply H. now right.
Qed.

(** A fact checked on each of the white-space characters holds of all. *)
Lemma on_spaces (P : string -> bool) :
  forallb P SPACES = true -> forall w, In w SPACES -> P w = true.
Proof. intros H w Hw. rewrite forallb_forall in H. auto. Qed.

Lemma spaces_nonempty (w : string) : In w SPACES -> w <> "".
Proof.
  intros Hw. apply is_empty_false.
  apply (on_spaces (fun w => negb (is_empty w))) in Hw; [|vm_compute; reflexivity].
  now apply negb_true_iff in Hw.
Qed.

Lemma space_in_spaces : In " " SPACES.
Proof. unfold SPACES. do 9 right. left. reflexivity. Qed.

Lemma app_comparable (w : string) :
  forall w' r r', w ++ r = w' ++ r' -> prefix w w' = true \/ prefix w' w = true.
Proof.
  induction w as [|a w IH]; intros w' r r' H.
  - left. now destruct w'.
  - destruct w' as [|b w']; [right; reflexivity|].
    simpl in H. injection H as -> H. simpl.
    destruct (ascii_dec b b) as [_|Hne]; [|congruence].
    exact (IH w' r r' H).
Qed.

(** No white-space character is the beginning of another. *)
Lemma spaces_prefix_free (w w' : string) :
  In w SPACES -> In w' SPACES -> prefix w w' = true -> w = w'.
Proof.
  intros Hw Hw' Hp.
  apply (on_spaces
           (fun w => forallb (fun w' => String.eqb w w' || negb (prefix w w')) SPACES))
    in Hw; [|vm_compute; reflexivity].
  rewrite forallb_forall in Hw. specialize (Hw w' Hw').
  rewrite Hp in Hw. simpl in Hw. rewrite orb_false_r in Hw.
  now apply String.eqb_eq.
Qed.

Lemma skip_space_app (w r : string) : In w SPACES -> skip_space (w ++ r) = Some r.
Proof.
  intros Hw. unfold skip_space.
  destruct (skip_any SPACES (w ++ r)) as [r'|] eqn:E.
  - destruct (skip_any_some _ _ _ E) as [w' [Hw' Heq]].
    assert (w = w').
    { destruct (app_comparable _ _ _ _ Heq) as [Hp|Hp].
      - now apply spaces_prefix_free.
      - symmetry. now apply spaces_prefix_free. }
    subst w'. f_equal. symmetry. exact (append_inv_head _ _ _ Heq).
  - rewrite skip_any_none in E. exfalso. exact (E w Hw r eq_refl).
Qed.

Lemma skip_space_shorter (s r : string) :
  skip_space s = Some r -> String.length r < String.length s.
Proof.
  intros H. destruct (skip_any_some _ _ _ H) as [w [Hw ->]].
  rewrite length_append. apply spaces_nonempty in Hw.
  destruct w; [congruence | simpl; lia].
Qed.

Lemma skip_space_empty : skip_space "" = None.
Proof. reflexivity. Qed.

Lemma lstrip_from_any (n : nat) :
  forall m s, String.length s <= n -> String.length s <= m ->
              lstrip_from n s = lstrip_from m s.
Proof.
  induction n as [|n IH]; intros m s Hn Hm.
  - destruct s; [|simpl in Hn; lia]. destruct m; reflexivity.
  - destruct m as [|m].
    + destruct s; [reflexivity | simpl in Hm; lia].
    + simpl. destruct (skip_space s) as [r|] eqn:E; [|reflexivity].
      apply skip_space_shorter in E. apply IH; lia.
Qed.

Lemma lstrip_step (s : string) :
  lstrip s = match skip_space s with Some r => lstrip r | None => s end.
Proof.
  unfold lstrip. destruct s as [|c s]; [reflexivity|].
  change (lstrip_from (String.length (String c s)) (String c s))
    with (match skip_space (String c s) with
          | Some r => lstrip_from (String.length s) r
          | None => String c s
          end).
  destruct (skip_space (String c s)) as [r|] eqn:E; [|reflexivity].
  apply skip_space_shorter in E. simpl in E. apply lstrip_from_any; lia.
Qed.

Lemma lstrip_no_space (s : string) : skip_space (lstrip s) = None.
Proof.
  remember (String.length s) as n eqn:Hn.
  revert s Hn. induction n as [n IH] using lt_wf_ind. intros s Hn.
  rewrite lstrip_step. destruct (skip_space s) as [r|] eqn:E; [|exact E].
  apply (IH (String.length r)); [|reflexivity].
  apply skip_space_shorter in E. lia.
Qed.

Lemma lstrip_app_space (w r : string) : In w SPACES -> lstrip (w ++ r) = lstrip r.
Proof. intros Hw. now rewrite lstrip_step, skip_space_app. Qed.

Lemma rstrip_step (c : ascii) (s : string) :
  rstrip (String c s)
  = if all_space (String c s) then "" else String c (rstrip s).
Proof. reflexivity. Qed.

Lemma rstrip_split (s : string) :
  exists z, s = rstrip s ++ z /\ all_space z = true.
Proof.
  induction s as [|c s [z [Hs Hz]]].
  - exists "". split; reflexivity.
  - rewrite rstrip_step. destruct (all_space (String c s)) eqn:E.
    + exists (String c s). auto.
    + exists z. split; [|exact Hz]. simpl. now rewrite <- Hs.
Qed.

Lemma rstrip_no_space_end (s : string) :
  forall w p, In w SPACES -> rstrip s <> p ++ w.
Proof.
  induction s as [|c s IH]; intros w p Hw H.
  - symmetry in H. apply append_empty in H. destruct H as [_ H].
    exact (spaces_nonempty w Hw H).
  - rewrite rstrip_step in H. destruct (all_space (String c s)) eqn:E.
    + symmetry in H. apply append_empty in H. destruct H as [_ H].
      exact (spaces_nonempty w Hw H).
    + destruct p as [|c' p]; simpl in H.
      * destruct (rstrip_split s) as [z [Hs Hz]].
        assert (Hall : all_space (String c s) = true).
        { replace (String c s) with (w ++ z).
          - unfold all_space in *. now rewrite lstrip_app_space.
          - rewrite <- H. simpl. now rewrite <- Hs. }
        congruence.
      * injection H as _ H. exact (IH w p Hw H).
Qed.

(** What [strip] returns is trimmed. *)
Lemma strip_trimmed (s : string) : trimmed (strip s).
Proof.
  intros w Hw. split.
  - intros r Hr. unfold strip in Hr.
    destruct (rstrip_split (lstrip s)) as [z [Hs _]].
    rewrite Hr, append_assoc in Hs.
    pose proof (lstrip_no_space s) as Hnone.
    rewrite Hs, skip_space_app in Hnone by assumption. discriminate.
  - intros p. now apply rstrip_no_space_end.
Qed.

Lemma trimmed_empty : trimmed "".
Proof.
  intros w Hw. split; intros r H; symmetry in H; apply append_empty in H;
    destruct H as [H1 H2]; exact (spaces_nonempty w Hw ltac:(assumption)).
Qed.

(** A text that is not empty and has no white space at its head is not
    stripped to nothing. *)
Lemma strip_nonempty (s : string) :
  s <> "" -> skip_space s = None -> strip s <> "".
Proof.
  intros Hne Hnone. unfold strip. rewrite lstrip_step, Hnone.
  destruct s as [|c s]; [congruence|].
  rewrite rstrip_step. unfold all_space. rewrite lstrip_step, Hnone.
  discriminate.
Qed.

(** *** Characters *)

Lemma len_append (a b : string) : len (a ++ b) = len a + len b.
Proof.
  induction a as [|c a IH]; simpl; [reflexivity|]. rewrite IH. lia.
Qed.

Lemma len_take (n : nat) : forall s, len (take n s) <= n.
Proof.
  intros s. revert n. induction s as [|c s IH]; intros n; simpl; [lia|].
  destruct (is_continuation c) eqn:Hc; simpl.
  - rewrite Hc. exact (IH n).
  - destruct n as [|n]; simpl; [lia|]. rewrite Hc. specialize (IH n). lia.
Qed.

End PyStrFacts.
(** ** Dictionaries and loops over keys *)

Section DictFacts.
Context {V : Type}.

Lemma dict_get_key (t : dict V) (k : string) :
  In k (keys t) -> exists v, dict_get k t = Some v /\ In (k, v) t.
Proof.
  induction t as [|[k' v'] t IH]; simpl; [tauto|].
  intros Hin. destruct (String.eqb k k') eqn:Hk.
  - apply String.eqb_eq in Hk. subst. exists v'. auto.
  - destruct Hin as [->|Hin]; [rewrite String.eqb_refl in Hk; discriminate|].
    destruct (IH Hin) as [v [Hg Hv]]. exists v. auto.
Qed.
End DictFacts.

(** The first element that a test accepts splits the list. *)
Lemma find_first {A : Type} (f : A -> bool) (l : list A) (x : A) :
  find f l = Some x ->
  exists pre post, l = (pre ++ x :: post)%list /\ f x = true /\
                   forall y, In y pre -> f y = false.
Proof.
  induction l as [|a l IH]; simpl; [discriminate|].
  destruct (f a) eqn:Ha.
  - intros [= ->]. exists [], l. repeat split; auto. intros y [].
  - intros Hx. destruct (IH Hx) as [pre [post [-> [Hfx Hpre]]]].
    exists (a :: pre), post. repeat split; auto.
    intros y [<-|Hy]; auto.
Qed.

Lemma find_none_iff {A : Type} (f : A -> bool) (l : list A) :
  find f l = None <-> forall y, In y l -> f y = false.
Proof.
  split; [apply find_none|].
  induction l as [|a l IH]; simpl; [reflexivity|].
  intros H. rewrite (H a (or_introl eq_refl)). apply IH. auto.
Qed.

Lemma find_app_first {A : Type} (f : A -> bool) (pre post : list A) (x : A) :
  f x = true -> (forall y, In y pre -> f y = false) ->
  find f (pre ++ x :: post)%list = Some x.
Proof.
  intros Hx. induction pre as [|a pre IH]; simpl; intros Hpre.
  - now rewrite Hx.
  - rewrite (Hpre a (or_introl eq_refl)). apply IH. auto.
Qed.

(** ** The matcher *)

Lemma Qlt_bool_iff (x y : Q) : Qlt_bool x y = true <-> (x < y)%Q.
Proof.
  unfold Qlt_bool. rewrite negb_true_iff. split.
  - intros H. apply Qnot_le_lt. rewrite <- Qle_bool_iff. congruence.
  - intros H. destruct (Qle_bool y x) eqn:E; [|reflexivity].
    apply Qle_bool_iff in E. exfalso. exact (Qlt_not_le _ _ H E).
Qed.

Lemma Qlt_bool_false (x y : Q) : Qlt_bool x y = false <-> (y <= x)%Q.
Proof.
  unfold Qlt_bool. rewrite negb_false_iff. apply Qle_bool_iff.
Qed.

Lemma Qle_bool_false (x y : Q) : Qle_bool x y = false <-> (y < x)%Q.
Proof.
  rewrite <- Qlt_bool_iff. unfold Qlt_bool. now rewrite negb_true_iff.
Qed.

Section MatcherFacts.
Variable ratio : string -> string -> Q.

(** The second loop returns its starting state when no key beats the
    starting score, and otherwise the first key of maximal ratio. *)
Lemma similarity_pass_spec (m : string) (ks : list string)
      (s : Q) (bk : option string) :
  (similarity_pass ratio m ks s bk = (s, bk) /\
   forall k, In k ks -> (ratio m k <= s)%Q)
  \/
  (exists pre key post,
      ks = (pre ++ key :: post)%list /\
      similarity_pass ratio m ks s bk = (ratio m key, Some key) /\
      (s < ratio m key)%Q /\
      (forall k, In k pre -> (ratio m k < ratio m key)%Q) /\
      (forall k, In k post -> (ratio m k <= ratio m key)%Q)).
Proof.
  revert s bk. induction ks as [|key ks IH]; intros s bk; simpl.
  - left. split; [reflexivity | intros k []].
  - destruct (Qlt_bool s (ratio m key)) eqn:Hlt.
    + apply Qlt_bool_iff in Hlt. right.
      destruct (IH (ratio m key) (Some key))
        as [[Heq Hall] | [pre [k' [post [-> [Heq [Hgt [Hpre Hpost]]]]]]]].
      * exists [], key, ks. simpl. repeat split; auto. intros k [].
      * exists (key :: pre), k', post. simpl. repeat split; auto.
        -- lra.
        -- intros k [<-|Hk]; auto.
    + apply Qlt_bool_false in Hlt.
      destruct (IH s bk)
        as [[Heq Hall] | [pre [k' [post [-> [Heq [Hgt [Hpre Hpost]]]]]]]].
      * left. split; auto. intros k [<-|Hk]; auto.
      * right. exists (key :: pre), k', post. simpl. repeat split; auto.
        intros k [<-|Hk]; [lra | auto].
Qed.

Variable t : dict string.

Lemma match_in_substring (message : string) (pre post : list string) (key : string) :
  message <> "" ->
  keys t = (pre ++ key :: post)%list ->
  PyStr.is_substring key (PyStr.lower message) = true ->
  (forall k, In k pre -> PyStr.is_substring k (PyStr.lower message) = false) ->
  match_in ratio t message = dict_get key t.
Proof.
  intros Hne Hkeys Hkey Hpre. unfold match_in, substring_pass.
  apply PyStrFacts.is_empty_false in Hne. rewrite Hne, Hkeys.
  now rewrite (find_app_first _ pre post key Hkey Hpre).
Qed.

Lemma match_in_similarity (message : string) :
  message <> "" ->
  (forall k, In k (keys t) -> PyStr.is_substring k (PyStr.lower message) = false) ->
  (forall k, In k (keys t) -> k <> "") ->
  let m := PyStr.lower message in
  ((forall k, In k (keys t) -> (ratio m k < THRESHOLD)%Q) /\
   match_in ratio t message = None)
  \/
  (exists pre key post,
      keys t = (pre ++ key :: post)%list /\
      (THRESHOLD <= ratio m key)%Q /\
      (forall k, In k pre -> (ratio m k < ratio m key)%Q) /\
      (forall k, In k post -> (ratio m k <= ratio m key)%Q) /\
      match_in ratio t message = dict_get key t).
Proof.
  intros Hne Hsub Hkeys m. unfold match_in, substring_pass.
  apply PyStrFacts.is_empty_false in Hne. rewrite Hne.
  apply find_none_iff in Hsub. rewrite Hsub. fold m.
  assert (H0 : (0 < THRESHOLD)%Q) by (unfold THRESHOLD; reflexivity).
  destruct (similarity_pass_spec m (keys t) 0%Q None)
    as [[Heq Hall] | [pre [key [post [Hsplit [Heq [Hgt [Hpre Hpost]]]]]]]];
    rewrite Heq.
  - left. split; [|reflexivity]. intros k Hk. specialize (Hall k Hk). lra.
  - assert (Hin : In key (keys t)).
    { rewrite Hsplit. apply in_or_app. right. now left. }
    apply Hkeys, PyStrFacts.is_empty_false in Hin. rewrite Hin. simpl.
    rewrite andb_true_r.
    destruct (Qle_bool THRESHOLD (ratio m key)) eqn:Hth.
    + apply Qle_bool_iff in Hth. right. exists pre, key, post. auto.
    + apply Qle_bool_false in Hth. left. split; [|reflexivity].
      intros k Hk. rewrite Hsplit in Hk. apply in_app_or in Hk.
      destruct Hk as [Hk | [<- | Hk]].
      * specialize (Hpre k Hk). lra.
      * exact Hth.
      * specialize (Hpost k Hk). lra.
Qed.
End MatcherFacts.

Lemma keys_nonempty (k : string) : In k (keys PREDEFINED_ANSWERS) -> k <> "".
Proof.
  simpl. intros [<-|[<-|[<-|[<-|[<-|[]]]]]]; discriminate.
Qed.

Lemma answers_nonempty (k a : string) : In (k, a) PREDEFINED_ANSWERS -> a <> "".
Proof.
  unfold PREDEFINED_ANSWERS.
  intros [[= <- <-]|[[= <- <-]|[[= <- <-]|[[= <- <-]|[[= <- <-]|[]]]]]]; discriminate.
Qed.

(** C3.  When the lower-cased message holds a key of the table, the matcher
    returns the answer of the first such key in table order, and it does so
    for every similarity function: the similarity pass has no part in the
    result. *)
Theorem match_substring_first_key (message : string) :
  (exists key, In key (keys PREDEFINED_ANSWERS) /\
               PyStr.occurs_in key (PyStr.lower message)) ->
  exists pre key post answer,
    keys PREDEFINED_ANSWERS = (pre ++ key :: post)%list /\
    PyStr.occurs_in key (PyStr.lower message) /\
    (forall k, In k pre -> ~ PyStr.occurs_in k (PyStr.lower message)) /\
    In (key, answer) PREDEFINED_ANSWERS /\
    forall ratio, match_predefined_answer ratio message = Some answer.
Proof.
  intros [key0 [Hin0 Hocc0]].
  assert (Hne : message <> "").
  { intros ->. destruct Hocc0 as [p [q Hpq]]. simpl in Hpq.
    apply (keys_nonempty key0 Hin0).
    destruct p; [destruct key0; [reflexivity | discriminate] | discriminate]. }
  set (f := fun key => PyStr.is_substring key (PyStr.lower message)).
  destruct (find f (keys PREDEFINED_ANSWERS)) as [key|] eqn:Hfind.
  - destruct (find_first f _ _ Hfind) as [pre [post [Hsplit [Hkey Hpre]]]].
    assert (Hin : In key (keys PREDEFINED_ANSWERS)).
    { rewrite Hsplit. apply in_or_app. right. now left. }
    destruct (dict_get_key PREDEFINED_ANSWERS key Hin) as [answer [Hget Hpair]].
    exists pre, key, post, answer. repeat split; auto.
    + now apply PyStrFacts.is_substring_occurs.
    + intros k Hk. apply PyStrFacts.is_substring_not_occurs. now apply Hpre.
    + intros ratio. unfold match_predefined_answer.
      rewrite (match_in_substring ratio PREDEFINED_ANSWERS message pre post key);
        auto.
  - exfalso. rewrite find_none_iff in Hfind. specialize (Hfind key0 Hin0).
    unfold f in Hfind. apply PyStrFacts.is_substring_not_occurs in Hfind. auto.
Qed.

Lemma match_substring_first_key_witness :
  (exists key, In key (keys PREDEFINED_ANSWERS) /\
               PyStr.occurs_in key
                 (PyStr.lower "What SUPERPOWER shaped your Life Story?")) /\
  exists pre key post answer,
    keys PREDEFINED_ANSWERS = (pre ++ key :: post)%list /\
    PyStr.occurs_in key (PyStr.lower "What SUPERPOWER shaped your Life Story?") /\
    (forall k, In k pre ->
               ~ PyStr.occurs_in k
                   (PyStr.lower "What SUPERPOWER shaped your Life Story?")) /\
    In (key, answer) PREDEFINED_ANSWERS /\
    forall ratio,
      match_predefined_answer ratio "What SUPERPOWER shaped your Life Story?"
      = Some answer.
Proof.
  assert (H : exists key, In key (keys PREDEFINED_ANSWERS) /\
                PyStr.occurs_in key
                  (PyStr.lower "What SUPERPOWER shaped your Life Story?")).
  { exists "superpower". split.
    - simpl. auto.
    - exists "what ", " shaped your life story?". reflexivity. }
  split; [exact H|].
  exact (match_substring_first_key "What SUPERPOWER shaped your Life Story?" H).
Defined.

(** C2.  For a non-empty message whose lower-cased form holds no key, the
    matcher returns no match when every key's ratio is below 0.55, and
    otherwise the answer of the key of maximal ratio, the first one in table
    order among the maximal ones (every key before it has a strictly smaller
    ratio). *)
Theorem match_similarity_best_key (ratio : string -> string -> Q) (message : string) :
  message <> "" ->
  (forall key, In key (keys PREDEFINED_ANSWERS) ->
               ~ PyStr.occurs_in key (PyStr.lower message)) ->
  ((forall key, In key (keys PREDEFINED_ANSWERS) ->
                (ratio (PyStr.lower message) key < THRESHOLD)%Q) /\
   match_predefined_answer ratio message = None)
  \/
  (exists pre key post answer,
      keys PREDEFINED_ANSWERS = (pre ++ key :: post)%list /\
      (THRESHOLD <= ratio (PyStr.lower message) key)%Q /\
      (forall k, In k pre ->
                 (ratio (PyStr.lower message) k < ratio (PyStr.lower message) key)%Q) /\
      (forall k, In k post ->
                 (ratio (PyStr.lower message) k <= ratio (PyStr.lower message) key)%Q) /\
      In (key, answer) PREDEFINED_ANSWERS /\
      match_predefined_answer ratio message = Some answer).
Proof.
  intros Hne Hnone. unfold match_predefined_answer.
  destruct (match_in_similarity ratio PREDEFINED_ANSWERS message Hne)
    as [Hlow | [pre [key [post [Hsplit [Hth [Hpre [Hpost Hres]]]]]]]].
  - intros k Hk. apply PyStrFacts.is_substring_not_occurs. auto.
  - exact keys_nonempty.
  - left. exact Hlow.
  - right.
    assert (Hin : In key (keys PREDEFINED_ANSWERS)).
    { rewrite Hsplit. apply in_or_app. right. now left. }
    destruct (dict_get_key PREDEFINED_ANSWERS key Hin) as [answer [Hget Hpair]].
    exists pre, key, post, answer. repeat split; auto. congruence.
Qed.

Lemma no_key_in_life_stroy (key : string) :
  In key (keys PREDEFINED_ANSWERS) -> ~ PyStr.occurs_in key (PyStr.lower "Life Stroy").
Proof.
  intros Hin. apply PyStrFacts.is_substring_not_occurs.
  simpl in Hin.
  destruct Hin as [<-|[<-|[<-|[<-|[<-|[]]]]]]; vm_compute; reflexivity.
Defined.

Lemma match_similarity_best_key_witness :
  ((forall key, In key (keys PREDEFINED_ANSWERS) ->
                (Difflib.ratio (PyStr.lower "Life Stroy") key < THRESHOLD)%Q) /\
   match_predefined_answer Difflib.ratio "Life Stroy" = None)
  \/
  (exists pre key post answer,
      keys PREDEFINED_ANSWERS = (pre ++ key :: post)%list /\
      (THRESHOLD <= Difflib.ratio (PyStr.lower "Life Stroy") key)%Q /\
      (forall k, In k pre ->
                 (Difflib.ratio (PyStr.lower "Life Stroy") k
                  < Difflib.ratio (PyStr.lower "Life Stroy") key)%Q) /\
      (forall k, In k post ->
                 (Difflib.ratio (PyStr.lower "Life Stroy") k
                  <= Difflib.ratio (PyStr.lower "Life Stroy") key)%Q) /\
      In (key, answer) PREDEFINED_ANSWERS /\
      match_predefined_answer Difflib.ratio "Life Stroy" = Some answer).
Proof.
  apply (match_similarity_best_key Difflib.ratio "Life Stroy").
  - discriminate.
  - exact no_key_in_life_stroy.
Defined.

(** The run of the matcher on that message: the life-story answer, by a
    ratio of 18/20 with the key "life story". *)
Example match_life_stroy :
  match_predefined_answer Difflib.ratio "Life Stroy"
  = dict_get "life story" PREDEFINED_ANSWERS.
Proof. vm_compute. reflexivity. Qed.

Example match_weather :
  match_predefined_answer Difflib.ratio "what's the weather in Tokyo" = None.
Proof. vm_compute. reflexivity. Qed.

(** Exact ties go to the first key: with every ratio equal to 3/5 the first
    key of the table is the one that is answered. *)
Example match_tie_first_key :
  match_predefined_answer (fun _ _ => (3 # 5)%Q) "zzz"
  = dict_get "life story" PREDEFINED_ANSWERS.
Proof. vm_compute. reflexivity. Qed.

(** ** Runs *)

Section RunFacts.
Context {A B : Type}.

Lemma post_ret (P : A -> Prop) (a : A) : P a -> post P (ret a).
Proof. exact (fun H => H). Qed.

Lemma post_raise (P : A -> Prop) (e : exn) : post P (raise e).
Proof. exact I. Qed.

Lemma post_bind (P : A -> Prop) (Q : B -> Prop) (m : run A) (f : A -> run B) :
  post P m -> (forall a, P a -> post Q (f a)) -> post Q (bind m f).
Proof.
  unfold post, bind. destruct m as [[a|e] t]; simpl; [|auto].
  intros Ha Hf. specialize (Hf a Ha). now destruct (f a).
Qed.

Lemma post_true (m : run A) : post (fun _ => True) m.
Proof. unfold post. now destruct (fst m). Qed.

Lemma post_try (P : A -> Prop) (m : run A) (h : exn -> run A) :
  post P m -> (forall e, post P (h e)) -> post P (try_except m h).
Proof.
  unfold post, try_except. destruct m as [[a|e] t]; simpl; [auto|].
  intros _ Hh. specialize (Hh e). now destruct (h e).
Qed.

Lemma silent_ret (a : A) : silent (ret a).
Proof. reflexivity. Qed.

Lemma silent_raise (e : exn) : silent (@raise A e).
Proof. reflexivity. Qed.

Lemma silent_lift (o : outcome A) : silent (lift o).
Proof. reflexivity. Qed.

Lemma silent_bind (m : run A) (f : A -> run B) :
  silent m -> (forall a, silent (f a)) -> silent (bind m f).
Proof.
  unfold silent, bind. destruct m as [[a|e] t]; simpl; intros ->; [|reflexivity].
  intros Hf. specialize (Hf a). destruct (f a). simpl in *. now subst.
Qed.

Lemma silent_try (m : run A) (h : exn -> run A) :
  silent m -> (forall e, silent (h e)) -> silent (try_except m h).
Proof.
  unfold silent, try_except. destruct m as [[a|e] t]; simpl; intros ->; [reflexivity|].
  intros Hh. specialize (Hh e). destruct (h e). simpl in *. now subst.
Qed.

Lemma bind_ret_l (a : A) (f : A -> run B) : bind (ret a) f = f a.
Proof. unfold bind, ret. now destruct (f a). Qed.

Lemma bind_raise_l (e : exn) (f : A -> run B) : bind (raise e) f = raise e.
Proof. reflexivity. Qed.

Lemma bind_lift_return (a : A) (f : A -> run B) : bind (lift (Return a)) f = f a.
Proof. unfold bind, lift. now destruct (f a). Qed.

Lemma bind_lift_raise (e : exn) (f : A -> run B) :
  bind (lift (Raise e)) f = (Raise e, []).
Proof. reflexivity. Qed.
End RunFacts.

Lemma silent_collect {A B : Type} (f : A -> run (list B)) (l : list A) :
  (forall x, silent (f x)) -> silent (collect f l).
Proof.
  intros Hf. induction l as [|x l IH]; simpl.
  - apply silent_ret.
  - apply silent_bind; [apply Hf|]. intros ys.
    apply silent_bind; [exact IH|]. intros zs. apply silent_ret.
Qed.

(** ** The response normaliser *)

Lemma first_text_field_trimmed (d : list (string * pyval)) (names : list string)
      (s : string) :
  first_text_field d names = Some s -> PyStr.trimmed s.
Proof.
  induction names as [|key names IH]; simpl; [discriminate|].
  destruct (dict_get key d) as [[| | |val| | | |]|]; auto.
  destruct (PyStr.is_empty (PyStr.strip val)); auto.
  intros [= <-]. apply PyStrFacts.strip_trimmed.
Qed.

Lemma first_text_field_nonempty (d : list (string * pyval)) (names : list string)
      (s : string) :
  first_text_field d names = Some s -> s <> "".
Proof.
  induction names as [|key names IH]; simpl; [discriminate|].
  destruct (dict_get key d) as [[| | |val| | | |]|]; auto.
  destruct (PyStr.is_empty (PyStr.strip val)) eqn:He; auto.
  intros [= <-]. now apply PyStrFacts.is_empty_false.
Qed.

Ltac silent_step :=
  first
    [ apply silent_ret | apply silent_raise | apply silent_lift
    | apply silent_collect; intros
    | apply silent_try; intros
    | apply silent_bind; intros
    | match goal with
      | |- silent (if ?b then _ else _) => destruct b
      | |- silent (match ?x with _ => _ end) => destruct x
      end ].

Lemma object_part_silent (v : pyval) (first second : string) :
  silent (object_part v first second).
Proof. unfold object_part. repeat silent_step. Qed.

Lemma join_nonempty_silent (parts : list pyval) : silent (join_nonempty parts).
Proof. unfold join_nonempty, str_join. repeat silent_step. Qed.

Lemma candidate_part_silent (c : pyval) : silent (candidate_part c).
Proof.
  unfold candidate_part.
  destruct c; try apply silent_ret;
    (apply silent_bind; [apply object_part_silent | intros; apply silent_ret]).
Qed.

Lemma content_item_part_silent (item : pyval) : silent (content_item_part item).
Proof. unfold content_item_part. repeat silent_step. Qed.

Lemma output_parts_silent (out : pyval) : silent (output_parts out).
Proof.
  unfold output_parts.
  destruct out; try (apply silent_bind; [apply object_part_silent | intros; apply silent_ret]).
  destruct (dict_get "content" d) as [[]|]; try apply silent_ret.
  apply silent_collect. exact content_item_part_silent.
Qed.

Lemma from_outputs_silent (response : pyval) : silent (from_outputs response).
Proof.
  unfold from_outputs.
  apply silent_bind; [apply silent_lift|]. intros [outputs|]; [|apply silent_ret].
  apply silent_try; [|intros; apply silent_ret].
  destruct (seq_items outputs); [|apply silent_ret].
  apply silent_bind; [apply silent_collect; exact output_parts_silent|]. intros.
  apply silent_bind; [apply join_nonempty_silent|]. intros. apply silent_ret.
Qed.

Lemma from_mapping_silent (response : pyval) : silent (from_mapping response).
Proof. unfold from_mapping. repeat silent_step. Qed.

(** The body of the outer [try] performs no event. *)
Lemma extract_try_body_silent (response : pyval) :
  snd (extract_try_body response) = [].
Proof.
  change (silent (extract_try_body response)). unfold extract_try_body.
  apply silent_bind; [apply silent_lift|]. intros t.
  assert (Hrest : forall c : option pyval,
             silent (match c with
                     | Some candidates =>
                         match seq_items candidates with
                         | Some (c :: cs) =>
                             parts <- collect candidate_part (c :: cs) ;;
                             s <- join_nonempty parts ;;
                             ret (PyStr.strip s)
                         | _ =>
                             r <- from_outputs response ;;
                             match r with
                             | Some s => ret s
                             | None => from_mapping response
                             end
                         end
                     | None =>
                         r <- from_outputs response ;;
                         match r with
                         | Some s => ret s
                         | None => from_mapping response
                         end
                     end)).
  { assert (Hout : silent (r <- from_outputs response ;;
                           match r with
                           | Some s => ret s
                           | None => from_mapping response
                           end)).
    { apply silent_bind; [apply from_outputs_silent|].
      intros [s|]; [apply silent_ret | apply from_mapping_silent]. }
    intros [candidates|]; [|exact Hout].
    destruct (seq_items candidates) as [[|c cs]|]; try exact Hout.
    apply silent_bind; [apply silent_collect; exact candidate_part_silent|]. intros.
    apply silent_bind; [apply join_nonempty_silent|]. intros. apply silent_ret. }
  destruct t as [[]|]; try (apply silent_bind; [apply silent_lift | exact Hrest]).
  apply silent_ret.
Qed.

Lemma from_outputs_post (response : pyval) :
  post (fun r => forall s, r = Some s -> PyStr.trimmed s) (from_outputs response).
Proof.
  unfold from_outputs.
  apply (post_bind (fun _ => True)); [apply post_true|]. intros [outputs|] _;
    [|apply post_ret; discriminate].
  apply post_try; [|intros; apply post_ret; discriminate].
  destruct (seq_items outputs); [|apply post_ret; discriminate].
  apply (post_bind (fun _ => True)); [apply post_true|]. intros extracted _.
  apply (post_bind (fun _ => True)); [apply post_true|]. intros s _.
  apply post_ret. intros s' [= <-]. apply PyStrFacts.strip_trimmed.
Qed.

Lemma from_mapping_post (response : pyval) :
  post PyStr.trimmed (from_mapping response).
Proof.
  unfold from_mapping.
  assert (Hstr : post PyStr.trimmed
                      (text <- lift (PyRepr.py_str response) ;; ret (PyStr.strip text))).
  { apply (post_bind (fun _ => True)); [apply post_true|]. intros text _.
    apply post_ret. apply PyStrFacts.strip_trimmed. }
  destruct response; try exact Hstr.
  destruct (first_text_field d _) eqn:E; [|exact Hstr].
  apply post_ret. exact (first_text_field_trimmed _ _ _ E).
Qed.

Lemma extract_try_body_post (response : pyval) :
  post PyStr.trimmed (extract_try_body response).
Proof.
  unfold extract_try_body.
  apply (post_bind (fun _ => True)); [apply post_true|]. intros t _.
  assert (Hout : post PyStr.trimmed
                      (r <- from_outputs response ;;
                       match r with
                       | Some s => ret s
                       | None => from_mapping response
                       end)).
  { eapply post_bind; [apply from_outputs_post|].
    intros [s|] Hs; [apply post_ret; now apply Hs | apply from_mapping_post]. }
  assert (Hrest : forall c : option pyval,
             post PyStr.trimmed
                  (match c with
                   | Some candidates =>
                       match seq_items candidates with
                       | Some (c :: cs) =>
                           parts <- collect candidate_part (c :: cs) ;;
                           s <- join_nonempty parts ;;
                           ret (PyStr.strip s)
                       | _ =>
                           r <- from_outputs response ;;
                           match r with
                           | Some s => ret s
                           | None => from_mapping response
                           end
                       end
                   | None =>
                       r <- from_outputs response ;;
                       match r with
                       | Some s => ret s
                       | None => from_mapping response
                       end
                   end)).
  { intros [candidates|]; [|exact Hout].
    destruct (seq_items candidates) as [[|c cs]|]; try exact Hout.
    apply (post_bind (fun _ => True)); [apply post_true|]. intros parts _.
    apply (post_bind (fun _ => True)); [apply post_true|]. intros s _.
    apply post_ret. apply PyStrFacts.strip_trimmed. }
  destruct t as [[]|];
    try (apply (post_bind (fun _ => True)); [apply post_true | intros c _; apply Hrest]).
  apply post_ret. apply PyStrFacts.strip_trimmed.
Qed.

(** Whatever the body of the outer [try] returns is trimmed, and the body
    performs no event. *)
Lemma extract_try_body_trimmed (response : pyval) (s : string) (t : list event) :
  extract_try_body response = (Return s, t) -> PyStr.trimmed s /\ t = [].
Proof.
  intros H. pose proof (extract_try_body_post response) as Hp.
  pose proof (extract_try_body_silent response) as Hs.
  unfold post in Hp. rewrite H in Hp, Hs. auto.
Qed.

(** The run of the normaliser, from the run of the body of its [try]. *)
Lemma extract_run (response : pyval) :
  _extract_text_from_gemini_response response
  = match fst (extract_try_body response) with
    | Return s => (Return s, [])
    | Raise _ =>
        (PyRepr.py_str response,
         [LogException
            "Error extracting text from Gemini response; falling back to str(response)."])
    end.
Proof.
  unfold _extract_text_from_gemini_response.
  pose proof (extract_try_body_silent response) as Hs.
  destruct (extract_try_body response) as [[s|e] t]; simpl in *; subst; reflexivity.
Qed.

(** C4 (as the claim states it).  A response whose [text] accessor raises
    and whose [__str__] raises: the error of the body is caught, and the
    [str(response)] of the handler raises out of the function. *)
Lemma extract_raises_counterexample :
  fst (_extract_text_from_gemini_response unprintable_response)
  = Raise (Exn "RuntimeError" "no text form").
Proof. reflexivity. Qed.

(** C4 (amended).  For a value whose [str()] returns a text, the normaliser
    returns a string and does not raise, and when the body of its [try]
    raises the string is that text.  The normaliser raises only when the
    body of its [try] raised and [str(response)] raises: then it raises what
    [str(response)] raises. *)
Theorem extract_returns_when_printable (response : pyval) :
  (forall text,
      PyRepr.py_str response = Return text ->
      exists (s : string) (t : list event),
        _extract_text_from_gemini_response response = (Return s, t) /\
        forall e, fst (extract_try_body response) = Raise e -> s = text) /\
  (forall e,
      fst (_extract_text_from_gemini_response response) = Raise e ->
      PyRepr.py_str response = Raise e /\
      exists e', fst (extract_try_body response) = Raise e').
Proof.
  rewrite extract_run.
  destruct (fst (extract_try_body response)) as [s|e0] eqn:Hbody; split.
  - intros text _. exists s, []. split; [reflexivity | discriminate].
  - discriminate.
  - intros text ->. eexists. eexists. split; [reflexivity | reflexivity].
  - simpl. intros e ->. split; [reflexivity | eauto].
Qed.

Lemma extract_returns_when_printable_witness :
  exists (s : string) (t : list event),
    _extract_text_from_gemini_response structured_candidates = (Return s, t) /\
    forall e, fst (extract_try_body structured_candidates) = Raise e ->
              s = " candidates=1 ".
Proof.
  apply (proj1 (extract_returns_when_printable structured_candidates)
               " candidates=1 ").
  reflexivity.
Defined.

Example extract_None :
  fst (_extract_text_from_gemini_response PNone) = Return "None".
Proof. reflexivity. Qed.

Example extract_empty_mapping :
  fst (_extract_text_from_gemini_response (PDict [])) = Return "{}".
Proof. reflexivity. Qed.

Example extract_empty_list :
  fst (_extract_text_from_gemini_response (PList [])) = Return "[]".
Proof. reflexivity. Qed.

Example extract_plain_object :
  fst (_extract_text_from_gemini_response
         (PObj [("usage", Return (PInt 3))] true
               (Return " <Response> ") (Return "<Response>")))
  = Return "<Response>".
Proof. reflexivity. Qed.

Example extract_direct_text :
  fst (_extract_text_from_gemini_response
         (PObj [("text", Return (PStr "  Hello there.  "))] true
               (Return "<Response>") (Return "<Response>")))
  = Return "Hello there.".
Proof. reflexivity. Qed.

(** A text padded with white space that is not ASCII is stripped too. *)
Example extract_direct_text_unicode_space :
  fst (_extract_text_from_gemini_response
         (PObj [("text", Return (PStr (PyStr.utf8 0xA0 ++ "Hi" ++ PyStr.utf8 0x2003)))]
               true (Return "<Response>") (Return "<Response>")))
  = Return "Hi".
Proof. reflexivity. Qed.

(** An error inside the [outputs] step stays inside: the item that cannot
    be printed ends the step, and the result is the stripped [str()] of the
    response. *)
Example extract_outputs_error_inside :
  _extract_text_from_gemini_response
    (PObj [("outputs",
            Return (PList [PDict [("content",
                                   PList [PObj [] true
                                               (Raise (Exn "ValueError" "bad item"))
                                               (Return "<Item>")])]]))]
          true (Return " <Response> ") (Return "<Response>"))
  = (Return "<Response>", []).
Proof. reflexivity. Qed.

Example structured_candidates_body_raises :
  fst (extract_try_body structured_candidates)
  = Raise (TypeError "sequence item: expected str instance").
Proof. reflexivity. Qed.

(** C5 (the run that breaks it).  On the fallback path the normaliser
    returns [str(response)] as it is: here a text with a space at each end,
    which is not trimmed. *)
Theorem extract_fallback_not_trimmed :
  fst (_extract_text_from_gemini_response structured_candidates)
  = Return " candidates=1 " /\
  ~ PyStr.trimmed " candidates=1 ".
Proof.
  split; [reflexivity|].
  intros Htrim.
  destruct (Htrim " " PyStrFacts.space_in_spaces) as [Hhead _].
  exact (Hhead "candidates=1 " eq_refl).
Qed.

(** Everywhere else the result is trimmed: when the body of the [try] does
    not raise, the normaliser returns a trimmed string. *)
Lemma extract_trimmed_without_error (response : pyval) (s : string) (t : list event) :
  extract_try_body response = (Return s, t) ->
  _extract_text_from_gemini_response response = (Return s, []) /\ PyStr.trimmed s.
Proof.
  intros H. destruct (extract_try_body_trimmed response s t H) as [Htrim ->].
  rewrite extract_run, H. auto.
Qed.
(** ** The request handler *)


Lemma read_user_message_post (data : pyval) :
  post read_result_ok (read_user_message data).
Proof.
  unfold read_user_message. cbv zeta.
  repeat first
    [ apply post_ret; simpl; eauto; apply PyStrFacts.is_empty_false; assumption
    | apply post_raise
    | apply (post_bind (fun _ => True)); [apply post_true | intros ? _]
    | match goal with
      | |- post _ (if ?b then _ else _) => destruct b eqn:?
      | |- post _ (match ?x with _ => _ end) => destruct x eqn:?
      end ].
Qed.

Lemma read_user_message_silent (data : pyval) : silent (read_user_message data).
Proof.
  unfold read_user_message, py_contains, py_getitem, py_strip. cbv zeta.
  repeat run_step @silent_ret @silent_raise @silent_bind.
Qed.

Lemma dict_get_in {V : Type} (t : dict V) (k : string) (v : V) :
  dict_get k t = Some v -> In (k, v) t.
Proof.
  induction t as [|[k' v'] t IH]; simpl; [discriminate|].
  destruct (String.eqb k k') eqn:Hk.
  - apply String.eqb_eq in Hk. intros [= ->]. left. congruence.
  - auto.
Qed.

(** A hit of the matcher is an answer of the table, so it is not empty. *)
Lemma match_answer_nonempty (ratio : string -> string -> Q) (message answer : string) :
  match_predefined_answer ratio message = Some answer -> answer <> "".
Proof.
  unfold match_predefined_answer, match_in.
  destruct (PyStr.is_empty message); [discriminate|].
  destruct (substring_pass _ _) as [key|].
  - intros H. exact (answers_nonempty _ _ (dict_get_in _ _ _ H)).
  - destruct (similarity_pass _ _ _ _ _) as [best_score [key|]]; [|discriminate].
    destruct (_ && _); [|discriminate].
    intros H. exact (answers_nonempty _ _ (dict_get_in _ _ _ H)).
Qed.

Section HandlerFacts.
Variable ratio : string -> string -> Q.
Variable srv : server.

Lemma chat_after_read (data : pyval) (user_message : string) :
  fst (read_user_message data) = Return (inl user_message) ->
  chat ratio srv data = reply_to ratio srv user_message.
Proof.
  intros Hread. unfold chat.
  pose proof (read_user_message_silent data) as Hsilent. unfold silent in Hsilent.
  destruct (read_user_message data) as [o t]. simpl in *. subst. simpl.
  now destruct (reply_to ratio srv user_message).
Qed.

Lemma reply_to_hit (user_message answer : string) :
  match_predefined_answer ratio user_message = Some answer ->
  reply_to ratio srv user_message
  = (Return (reply_response answer),
     [LogInfo ("Received message: " ++ user_message);
      LogInfo "Returning predefined reply"]).
Proof.
  intros Hhit. unfold reply_to. rewrite Hhit.
  apply match_answer_nonempty, PyStrFacts.is_empty_false in Hhit.
  rewrite Hhit. reflexivity.
Qed.

Lemma reply_to_unconfigured (user_message : string) :
  client srv = None ->
  match_predefined_answer ratio user_message = None ->
  reply_to ratio srv user_message
  = (Return (reply_response NOT_CONFIGURED_REPLY),
     [LogInfo ("Received message: " ++ user_message);
      LogInfo "Gemini client not configured; returning helpful fallback message."]).
Proof.
  intros Hclient Hmiss. unfold reply_to. rewrite Hmiss, Hclient. reflexivity.
Qed.

(** With a client and no canned answer, the handler makes one call and
    answers from what the call returns or raises. *)
Lemma reply_to_call (c : client_t) (user_message : string) :
  client srv = Some c ->
  match_predefined_answer ratio user_message = None ->
  fst (reply_to ratio srv user_message)
  = match invoke c (select_convention c) (DEFAULT_MODEL srv)
                 (prompt_for user_message) with
    | Raise e => Return (error_response ("Gemini error: " ++ exn_text e) 500%Z)
    | Return response =>
        match fst (_extract_text_from_gemini_response response) with
        | Return reply_text =>
            Return (reply_response
                      (if PyStr.is_empty reply_text then EMPTY_RESPONSE_REPLY
                       else reply_text))
        | Raise e => Return (error_response ("Gemini error: " ++ exn_text e) 500%Z)
        end
    end.
Proof.
  intros Hclient Hmiss. unfold reply_to. rewrite Hmiss, Hclient.
  unfold call_client.
  destruct (invoke c _ _ _) as [response|e]; [|reflexivity].
  simpl.
  destruct (_extract_text_from_gemini_response response) as [[reply_text|e] t];
    reflexivity.
Qed.
End HandlerFacts.

Lemma reply_response_reply_only (text : string) : reply_only (reply_response text).
Proof. split; [now exists text | reflexivity]. Qed.

Lemma error_response_error_only (text : string) (code : Z) :
  error_only (error_response text code).
Proof. split; [now exists text | reflexivity]. Qed.

Lemma chat_post (ratio : string -> string -> Q) (srv : server) (data : pyval) :
  post (fun r => reply_only r \/ error_only r) (chat ratio srv data).
Proof.
  unfold chat.
  apply (post_bind read_result_ok); [apply read_user_message_post|].
  intros [user_message | response] Hread.
  - unfold reply_to. cbv zeta.
    apply (post_bind (fun _ => True)); [apply post_true | intros _ _].
    assert (Hrest :
              post (fun r => reply_only r \/ error_only r)
                   match client srv with
                   | None =>
                       emit (LogInfo
                               "Gemini client not configured; returning helpful fallback message.") ;;;
                       ret (reply_response NOT_CONFIGURED_REPLY)
                   | Some c =>
                       try_except
                         (response <- call_client c (select_convention c)
                                                  (DEFAULT_MODEL srv)
                                                  (prompt_for user_message) ;;
                          reply_text <- _extract_text_from_gemini_response response ;;
                          emit (LogInfo
                                  ("Gemini reply (truncated): " ++
                                   truncated
                                     (if PyStr.is_empty reply_text
                                      then EMPTY_RESPONSE_REPLY else reply_text))) ;;;
                          ret (reply_response
                                 (if PyStr.is_empty reply_text
                                  then EMPTY_RESPONSE_REPLY else reply_text)))
                         (fun e =>
                            emit (LogException "Error while calling Gemini") ;;;
                            ret (error_response ("Gemini error: " ++ exn_text e) 500%Z))
                   end).
    { destruct (client srv) as [c|].
      - apply post_try.
        + apply (post_bind (fun _ => True)); [apply post_true | intros response _].
          apply (post_bind (fun _ => True)); [apply post_true | intros reply_text _].
          apply (post_bind (fun _ => True)); [apply post_true | intros _ _].
          apply post_ret. left. apply reply_response_reply_only.
        + intros e.
          apply (post_bind (fun _ => True)); [apply post_true | intros _ _].
          apply post_ret. right. apply error_response_error_only.
      - apply (post_bind (fun _ => True)); [apply post_true | intros _ _].
        apply post_ret. left. apply reply_response_reply_only. }
    destruct (match_predefined_answer ratio user_message) as [static_reply|];
      [destruct (PyStr.is_empty static_reply)|]; try exact Hrest.
    apply (post_bind (fun _ => True)); [apply post_true | intros _ _].
    apply post_ret. left. apply reply_response_reply_only.
  - apply post_ret. destruct Hread as [text ->]. right.
    apply error_response_error_only.
Qed.

(** C1 (as the claim states it): the empty object is not answered with
    "No 'message' or 'messages' provided". *)
Lemma chat_empty_object_counterexample :
  fst (chat Difflib.ratio unconfigured_server (PDict []))
  <> Return (Resp [("error", PStr "No 'message' or 'messages' provided")] 400%Z).
Proof. discriminate. Qed.

(** C1 (amended).  The empty JSON object is false, so the first test of the
    handler answers it: status 400 and the body
    [{"error": "No JSON body provided"}], with no event. *)
Theorem chat_empty_object (ratio : string -> string -> Q) (srv : server) :
  chat ratio srv (PDict [])
  = (Return (Resp [("error", PStr "No JSON body provided")] 400%Z), []).
Proof. reflexivity. Qed.

(** A non-empty object that has neither field is the one answered with
    "No 'message' or 'messages' provided". *)
Lemma chat_no_message_field (ratio : string -> string -> Q) (srv : server)
      (d : list (string * pyval)) :
  d <> [] ->
  dict_get "message" d = None ->
  dict_get "messages" d = None ->
  chat ratio srv (PDict d)
  = (Return (Resp [("error", PStr "No 'message' or 'messages' provided")] 400%Z), []).
Proof.
  intros Hne Hm Hms. unfold chat, read_user_message, py_contains, dict_has.
  destruct d; [congruence|]. simpl truthy. cbv zeta.
  rewrite Hm, Hms. reflexivity.
Qed.

(** C10.  An object whose [message] is present and is not a string, and
    that has no [messages], is answered as if [message] were absent:
    status 400 and "No 'message' or 'messages' provided". *)
Theorem chat_message_not_a_string (ratio : string -> string -> Q) (srv : server)
        (d : list (string * pyval)) (v : pyval) :
  dict_get "message" d = Some v ->
  (forall s, v <> PStr s) ->
  dict_get "messages" d = None ->
  chat ratio srv (PDict d)
  = (Return (Resp [("error", PStr "No 'message' or 'messages' provided")] 400%Z), []).
Proof.
  intros Hm Hv Hms. unfold chat, read_user_message, py_contains, py_getitem, dict_has.
  destruct d as [|kv d]; [discriminate|]. simpl truthy. cbv zeta.
  rewrite Hm, Hms.
  destruct v; try reflexivity. exfalso. exact (Hv s eq_refl).
Qed.

Lemma chat_message_not_a_string_witness :
  chat Difflib.ratio answering_server (PDict [("message", PInt 42); ("user", PStr "ada")])
  = (Return (Resp [("error", PStr "No 'message' or 'messages' provided")] 400%Z), []).
Proof.
  apply (chat_message_not_a_string Difflib.ratio answering_server
           [("message", PInt 42); ("user", PStr "ada")] (PInt 42)).
  - reflexivity.
  - discriminate.
  - reflexivity.
Defined.

(** C6.  When a message was read and the matcher has an answer for it, the
    handler returns 200 with [{"reply": answer}] and its run holds no call
    to the client. *)
Theorem chat_canned_answer (ratio : string -> string -> Q) (srv : server)
        (data : pyval) (user_message answer : string) :
  fst (read_user_message data) = Return (inl user_message) ->
  match_predefined_answer ratio user_message = Some answer ->
  fst (chat ratio srv data) = Return (Resp [("reply", PStr answer)] 200%Z) /\
  forall conv model prompt,
    ~ In (Generate conv model prompt) (snd (chat ratio srv data)).
Proof.
  intros Hread Hhit.
  rewrite (chat_after_read ratio srv data user_message Hread).
  rewrite (reply_to_hit ratio srv user_message answer Hhit). simpl.
  split; [reflexivity|].
  intros conv model prompt [H|[H|[]]]; discriminate.
Qed.

Lemma chat_canned_answer_witness :
  fst (chat Difflib.ratio answering_server
            (PDict [("message", PStr "tell me about your life story")]))
  = Return (Resp [("reply",
                   PStr ("I grew up fascinated by how technology connects people. " ++
                         "My journey began with curiosity about automation and intelligence, " ++
                         "and I evolved into an assistant designed to simplify learning and creativity."))]
                 200%Z) /\
  forall conv model prompt,
    ~ In (Generate conv model prompt)
         (snd (chat Difflib.ratio answering_server
                    (PDict [("message", PStr "tell me about your life story")]))).
Proof.
  apply (chat_canned_answer Difflib.ratio answering_server
           (PDict [("message", PStr "tell me about your life story")])
           "tell me about your life story").
  - reflexivity.
  - vm_compute. reflexivity.
Defined.

(** C7.  With no client configured and no canned answer for the message
    that was read, the handler returns 200 with the fixed reply that the
    backend is not configured. *)
Theorem chat_unconfigured (ratio : string -> string -> Q) (srv : server)
        (data : pyval) (user_message : string) :
  client srv = None ->
  fst (read_user_message data) = Return (inl user_message) ->
  match_predefined_answer ratio user_message = None ->
  fst (chat ratio srv data)
  = Return (Resp [("reply",
                   PStr ("Gemini backend is not configured on this server. " ++
                         "I can still answer a set of predefined questions. " ++
                         "For other queries, please configure GEMINI_API_KEY on the server."))]
                 200%Z).
Proof.
  intros Hclient Hread Hmiss.
  rewrite (chat_after_read ratio srv data user_message Hread).
  now rewrite (reply_to_unconfigured ratio srv user_message Hclient Hmiss).
Qed.

Lemma chat_unconfigured_witness :
  fst (chat Difflib.ratio unconfigured_server
            (PDict [("message", PStr "what's the weather in Tokyo")]))
  = Return (Resp [("reply",
                   PStr ("Gemini backend is not configured on this server. " ++
                         "I can still answer a set of predefined questions. " ++
                         "For other queries, please configure GEMINI_API_KEY on the server."))]
                 200%Z).
Proof.
  apply (chat_unconfigured Difflib.ratio unconfigured_server
           (PDict [("message", PStr "what's the weather in Tokyo")])
           "what's the weather in Tokyo").
  - reflexivity.
  - reflexivity.
  - vm_compute. reflexivity.
Defined.

(** C8.  With a client and no canned answer for the message that was read,
    the handler always returns a response, never an exception.  When the
    call to the client raises [e], and also when the call returns and the
    normalisation of what it returned raises [e], the response is 500 with
    [{"error": "Gemini error: " + str(e)}]. *)
Theorem chat_backend_error (ratio : string -> string -> Q) (srv : server)
        (c : client_t) (data : pyval) (user_message : string) :
  client srv = Some c ->
  fst (read_user_message data) = Return (inl user_message) ->
  match_predefined_answer ratio user_message = None ->
  (exists response, fst (chat ratio srv data) = Return response) /\
  (forall e,
      invoke c (select_convention c) (DEFAULT_MODEL srv) (prompt_for user_message)
      = Raise e ->
      fst (chat ratio srv data)
      = Return (Resp [("error", PStr ("Gemini error: " ++ exn_text e))] 500%Z)) /\
  (forall response e,
      invoke c (select_convention c) (DEFAULT_MODEL srv) (prompt_for user_message)
      = Return response ->
      fst (_extract_text_from_gemini_response response) = Raise e ->
      fst (chat ratio srv data)
      = Return (Resp [("error", PStr ("Gemini error: " ++ exn_text e))] 500%Z)).
Proof.
  intros Hclient Hread Hmiss.
  rewrite (chat_after_read ratio srv data user_message Hread).
  rewrite (reply_to_call ratio srv c user_message Hclient Hmiss).
  repeat split.
  - destruct (invoke c _ _ _) as [response|e]; [|eauto].
    destruct (fst (_extract_text_from_gemini_response response)); eauto.
  - intros e ->. reflexivity.
  - intros response e -> ->. reflexivity.
Qed.

Lemma chat_backend_error_witness :
  (exists response,
      fst (chat Difflib.ratio failing_server
                (PDict [("message", PStr "what's the weather in Tokyo")]))
      = Return response) /\
  (forall e,
      invoke failing_client (select_convention failing_client)
             (DEFAULT_MODEL failing_server) (prompt_for "what's the weather in Tokyo")
      = Raise e ->
      fst (chat Difflib.ratio failing_server
                (PDict [("message", PStr "what's the weather in Tokyo")]))
      = Return (Resp [("error", PStr ("Gemini error: " ++ exn_text e))] 500%Z)) /\
  (forall response e,
      invoke failing_client (select_convention failing_client)
             (DEFAULT_MODEL failing_server) (prompt_for "what's the weather in Tokyo")
      = Return response ->
      fst (_extract_text_from_gemini_response response) = Raise e ->
      fst (chat Difflib.ratio failing_server
                (PDict [("message", PStr "what's the weather in Tokyo")]))
      = Return (Resp [("error", PStr ("Gemini error: " ++ exn_text e))] 500%Z)).
Proof.
  apply (chat_backend_error Difflib.ratio failing_server failing_client
           (PDict [("message", PStr "what's the weather in Tokyo")])
           "what's the weather in Tokyo").
  - reflexivity.
  - reflexivity.
  - vm_compute. reflexivity.
Defined.

(** A client whose answer cannot be normalised: the exception of the
    normaliser is answered like one of the call. *)
Example chat_with_unprintable_answer :
  chat Difflib.ratio
       (Server (Some (Client true true false false
                             (fun _ _ _ => Return unprintable_response)))
               "gemini-2.0-flash")
       (PDict [("message", PStr "what's the weather in Tokyo")])
  = (Return (Resp [("error", PStr "Gemini error: no text form")] 500%Z),
     [LogInfo "Received message: what's the weather in Tokyo";
      Generate ModelsGenerateContent "gemini-2.0-flash"
               (prompt_for "what's the weather in Tokyo");
      LogException
        "Error extracting text from Gemini response; falling back to str(response).";
      LogException "Error while calling Gemini"]).
Proof. vm_compute. reflexivity. Qed.

(** The two runs with a client, in full: the call that raises and the call
    that answers. *)
Example chat_with_failing_client :
  chat Difflib.ratio failing_server
       (PDict [("message", PStr "what's the weather in Tokyo")])
  = (Return (Resp [("error", PStr "Gemini error: 503 UNAVAILABLE")] 500%Z),
     [LogInfo "Received message: what's the weather in Tokyo";
      Generate ModelsGenerateContent "gemini-2.0-flash"
               (prompt_for "what's the weather in Tokyo");
      LogException "Error while calling Gemini"]).
Proof. vm_compute. reflexivity. Qed.

Example chat_with_answering_client :
  chat Difflib.ratio answering_server
       (PDict [("messages", PList [PStr "hi"; PDict [("content", PStr " what's the weather in Tokyo ")]])])
  = (Return (Resp [("reply", PStr "Sunny, I would guess.")] 200%Z),
     [LogInfo "Received message: what's the weather in Tokyo";
      Generate ModelsGenerateContent "gemini-2.0-flash"
               (prompt_for "what's the weather in Tokyo");
      LogInfo "Gemini reply (truncated): Sunny, I would guess."]).
Proof. vm_compute. reflexivity. Qed.

(** C9.  Every response the handler returns has a body with exactly one
    field, whose value is a string: [reply] and no [error], or [error] and
    no [reply]. *)
Theorem chat_reply_xor_error (ratio : string -> string -> Q) (srv : server)
        (data : pyval) (response : http_response) (t : list event) :
  chat ratio srv data = (Return response, t) ->
  ((exists text, body response = [("reply", PStr text)]) /\
   dict_has "error" (body response) = false)
  \/
  ((exists text, body response = [("error", PStr text)]) /\
   dict_has "reply" (body response) = false).
Proof.
  intros Hrun. pose proof (chat_post ratio srv data) as Hpost.
  unfold post in Hpost. rewrite Hrun in Hpost. exact Hpost.
Qed.

Lemma chat_reply_xor_error_witness :
  ((exists text, body (Resp [("error", PStr "Empty message provided")] 400%Z)
                 = [("reply", PStr text)]) /\
   dict_has "error" (body (Resp [("error", PStr "Empty message provided")] 400%Z))
   = false)
  \/
  ((exists text, body (Resp [("error", PStr "Empty message provided")] 400%Z)
                 = [("error", PStr text)]) /\
   dict_has "reply" (body (Resp [("error", PStr "Empty message provided")] 400%Z))
   = false).
Proof.
  apply (chat_reply_xor_error Difflib.ratio answering_server
           (PDict [("message", PStr "   ")])
           (Resp [("error", PStr "Empty message provided")] 400%Z) []).
  reflexivity.
Defined.

(** ** The difflib model: the recursion of [matches] has fuel enough *)

Module DifflibFacts.
Import Difflib.

Section Bounds.
Variables a b : list string.

Lemma next_row_bound (ai : string) (blo bhi n : nat) :
  forall (bs : list string) (j diag : nat) (j2len : list nat),
    diag <= n ->
    Forall (fun k => k <= n) j2len ->
    Forall (fun k => k <= S n) (next_row ai blo bhi j bs diag j2len).
Proof.
  induction bs as [|bj bs IH]; intros j diag j2len Hdiag Hrow; simpl.
  - constructor.
  - constructor.
    + destruct (_ && _); lia.
    + apply IH.
      * destruct Hrow; simpl; [lia | assumption].
      * destruct Hrow; simpl; [constructor | assumption].
Qed.

Lemma scan_row_inside (alo i : nat) :
  alo <= i ->
  forall (row : list nat) (j : nat) (best : nat * nat * nat),
    Forall (fun k => k <= S (i - alo)) row ->
    inside alo (S i) best ->
    inside alo (S i) (scan_row i j row best).
Proof.
  intros Hi. induction row as [|k row IH]; intros j best Hrow Hbest; simpl.
  - exact Hbest.
  - destruct best as [[bi bj] bk]. inversion Hrow as [|? ? Hk Hrow']; subst.
    apply IH; [assumption|].
    destruct (bk <? k)%nat eqn:Hlt; [|exact Hbest].
    simpl. lia.
Qed.

Lemma longest_loop_inside (alo blo bhi : nat) :
  forall (rest : list string) (i : nat) (j2len : list nat)
         (best : nat * nat * nat),
    alo <= i ->
    Forall (fun k => k <= i - alo) j2len ->
    inside alo i best ->
    inside alo (i + List.length rest) (longest_loop b i rest blo bhi j2len best).
Proof.
  induction rest as [|ai rest IH]; intros i j2len best Hi Hrow Hbest; simpl.
  - now rewrite Nat.add_0_r.
  - replace (i + S (List.length rest)) with (S i + List.length rest) by lia.
    apply IH.
    + lia.
    + replace (S i - alo) with (S (i - alo)) by lia.
      apply next_row_bound; [lia | assumption].
    + apply scan_row_inside; [assumption | |].
      * apply next_row_bound; [lia | assumption].
      * destruct best as [[bi bj] bk]. simpl in *. lia.
Qed.

Lemma find_longest_match_inside (alo ahi blo bhi : nat) :
  alo <= ahi ->
  inside alo ahi (find_longest_match a b alo ahi blo bhi).
Proof.
  intros Hle. unfold find_longest_match.
  pose proof (longest_loop_inside alo blo bhi
                (firstn (ahi - alo) (skipn alo a)) alo [] (alo, blo, 0)
                (le_n _) (Forall_nil _)) as H.
  assert (Hlen : List.length (firstn (ahi - alo) (skipn alo a)) <= ahi - alo)
    by apply firstn_le_length.
  destruct (longest_loop b alo _ blo bhi [] (alo, blo, 0)) as [[i j] k].
  simpl in *. assert (alo <= alo /\ alo + 0 <= alo) as H0 by lia.
  specialize (H H0). lia.
Qed.

(** Any fuel above the length of the range of [a] gives the same sum. *)
Lemma matches_fuel (f1 : nat) :
  forall (f2 alo ahi blo bhi : nat),
    alo <= ahi -> ahi - alo < f1 -> ahi - alo < f2 ->
    matches a b f1 alo ahi blo bhi = matches a b f2 alo ahi blo bhi.
Proof.
  induction f1 as [|f1 IH]; intros f2 alo ahi blo bhi Hle H1 H2; [lia|].
  destruct f2 as [|f2]; [lia|]. simpl.
  pose proof (find_longest_match_inside alo ahi blo bhi Hle) as Hin.
  destruct (find_longest_match a b alo ahi blo bhi) as [[i j] k].
  simpl in Hin. destruct (k =? 0)%nat eqn:Hk; [reflexivity|].
  apply Nat.eqb_neq in Hk.
  f_equal; [f_equal|].
  - destruct (_ && _); [|reflexivity]. apply IH; lia.
  - destruct (_ && _); [|reflexivity]. apply IH; lia.
Qed.
End Bounds.

(** The fuel [ratio] gives is enough: more fuel changes nothing. *)
Lemma ratio_fuel (a b : string) (fuel : nat) :
  let la := PyStr.chars a in
  let lb := PyStr.chars b in
  List.length la < fuel ->
  matches la lb fuel 0 (List.length la) 0 (List.length lb)
  = matches la lb (S (List.length la)) 0 (List.length la) 0 (List.length lb).
Proof.
  intros la lb Hfuel. apply matches_fuel; lia.
Qed.
End DifflibFacts.


(** * Further properties of the matcher *)

Lemma same_ascii_letter_lower (c1 c2 : ascii) :
  same_ascii_letter c1 c2 = true -> PyStr.lower_char c1 = PyStr.lower_char c2.
Proof.
  unfold same_ascii_letter. cbv zeta.
  rewrite !orb_true_iff, !andb_true_iff, !Nat.leb_le, !Nat.eqb_eq.
  assert (Hupper : forall c d : ascii,
             65 <= nat_of_ascii c <= 90 -> nat_of_ascii d = nat_of_ascii c + 32 ->
             PyStr.lower_char c = PyStr.lower_char d).
  { intros c d Hc Hd. unfold PyStr.lower_char. cbv zeta.
    replace ((65 <=? nat_of_ascii c) && (nat_of_ascii c <=? 90))%nat with true
      by (symmetry; apply andb_true_iff; split; apply Nat.leb_le; lia).
    replace ((65 <=? nat_of_ascii d) && (nat_of_ascii d <=? 90))%nat with false
      by (symmetry; apply andb_false_iff; right; apply Nat.leb_gt; lia).
    rewrite <- Hd. apply ascii_nat_embedding. }
  intros [[Heq | [[Hlo Hhi] Hn]] | [[Hlo Hhi] Hn]].
  - apply Ascii.eqb_eq in Heq. now subst.
  - apply Hupper; [lia | exact Hn].
  - symmetry. apply Hupper; [lia | exact Hn].
Qed.

Lemma same_up_to_ascii_case_lower (a : string) :
  forall b, same_up_to_ascii_case a b = true -> PyStr.lower a = PyStr.lower b.
Proof.
  induction a as [|c1 a IH]; intros [|c2 b]; simpl; try discriminate; [reflexivity|].
  rewrite andb_true_iff. intros [Hc Hrest].
  now rewrite (same_ascii_letter_lower c1 c2 Hc), (IH b Hrest).
Qed.

Lemma is_empty_lower (s : string) : PyStr.is_empty (PyStr.lower s) = PyStr.is_empty s.
Proof. now destruct s. Qed.

(** X1.  The matcher does not see the case of ASCII letters: two messages
    that differ only in the case of letters A-Z get the same result, for
    every similarity function. *)
Theorem match_case_insensitive (ratio : string -> string -> Q) (m1 m2 : string) :
  same_up_to_ascii_case m1 m2 = true ->
  match_predefined_answer ratio m1 = match_predefined_answer ratio m2.
Proof.
  intros Hsame. apply same_up_to_ascii_case_lower in Hsame.
  unfold match_predefined_answer, match_in.
  rewrite <- (is_empty_lower m1), <- (is_empty_lower m2), Hsame. reflexivity.
Qed.

Lemma match_case_insensitive_witness :
  match_predefined_answer Difflib.ratio "How do I GROW?"
  = match_predefined_answer Difflib.ratio "how Do i grow?".
Proof.
  apply (match_case_insensitive Difflib.ratio "How do I GROW?" "how Do i grow?").
  reflexivity.
Defined.

(** X2.  A hit has a ground: the answer returned is the table's answer for
    a key that occurs in the lower-cased message or whose ratio to it is at
    least 0.55, and the message is not empty. *)
Theorem match_hit_has_ground (ratio : string -> string -> Q) (message answer : string) :
  match_predefined_answer ratio message = Some answer ->
  message <> "" /\
  exists key,
    In (key, answer) PREDEFINED_ANSWERS /\
    (PyStr.occurs_in key (PyStr.lower message) \/
     (THRESHOLD <= ratio (PyStr.lower message) key)%Q).
Proof.
  unfold match_predefined_answer, match_in.
  destruct (PyStr.is_empty message) eqn:Hne; [discriminate|].
  apply PyStrFacts.is_empty_false in Hne. intros H. split; [exact Hne|].
  unfold substring_pass in H.
  destruct (find _ _) as [key|] eqn:Hfind.
  - apply find_some in Hfind. destruct Hfind as [_ Hsub].
    exists key. split; [now apply dict_get_in|].
    left. now apply PyStrFacts.is_substring_occurs.
  - destruct (similarity_pass_spec ratio (PyStr.lower message)
                (keys PREDEFINED_ANSWERS) 0%Q None)
      as [[Heq _] | [pre [key [post [_ [Heq _]]]]]]; rewrite Heq in H;
      [discriminate|].
    destruct (Qle_bool THRESHOLD _) eqn:Hth; simpl in H; [|discriminate].
    destruct (negb _); [|discriminate].
    exists key. split; [now apply dict_get_in|].
    right. now apply Qle_bool_iff.
Qed.

Lemma match_hit_has_ground_witness :
  "Life Stroy" <> "" /\
  exists key,
    In (key,
        "I grew up fascinated by how technology connects people. " ++
        "My journey began with curiosity about automation and intelligence, " ++
        "and I evolved into an assistant designed to simplify learning and creativity.")
       PREDEFINED_ANSWERS /\
    (PyStr.occurs_in key (PyStr.lower "Life Stroy") \/
     (THRESHOLD <= Difflib.ratio (PyStr.lower "Life Stroy") key)%Q).
Proof.
  apply (match_hit_has_ground Difflib.ratio "Life Stroy").
  vm_compute. reflexivity.
Defined.

(** * Further properties of the response normaliser *)

Lemma as_strings_none (l : list pyval) :
  as_strings l = None <-> exists v, In v l /\ forall s, v <> PStr s.
Proof.
  induction l as [|v l IH]; simpl.
  - split; [discriminate | intros [v [[] _]]].
  - destruct v;
      try (split; [intros _; eexists; split; [left; reflexivity | discriminate]
                  | reflexivity]).
    destruct (as_strings l) as [ss|].
    + split; [discriminate|]. intros [v [[<-|Hv] Hns]].
      * exfalso. exact (Hns s eq_refl).
      * destruct IH as [_ IH]. discriminate (IH (ex_intro _ v (conj Hv Hns))).
    + split; [|reflexivity]. intros _.
      destruct IH as [IH _]. destruct (IH eq_refl) as [v [Hv Hns]].
      exists v. auto.
Qed.

Lemma join_nonempty_raises (parts : list pyval) :
  (exists e t, join_nonempty parts = (Raise e, t)) <->
  exists part, In part parts /\ truthy part = true /\ forall s, part <> PStr s.
Proof.
  unfold join_nonempty, str_join.
  destruct (as_strings (filter truthy parts)) as [ss|] eqn:Hs.
  - split.
    + intros [e [t H]]. discriminate.
    + intros [part [Hin [Ht Hns]]].
      assert (Hnone : as_strings (filter truthy parts) = None).
      { apply as_strings_none. exists part. split; [|exact Hns].
        apply filter_In. auto. }
      congruence.
  - split.
    + intros _. apply as_strings_none in Hs. destruct Hs as [part [Hin Hns]].
      apply filter_In in Hin. exists part. tauto.
    + intros _. eexists. eexists. reflexivity.
Qed.

Lemma collect_mappings (l : list pyval) :
  all_mappings l -> collect candidate_part l = ret (map mapping_part l).
Proof.
  induction l as [|v l IH]; intros Hall; [reflexivity|].
  destruct (Hall v (or_introl eq_refl)) as [d ->].
  cbn [collect candidate_part map mapping_part].
  rewrite bind_ret_l, IH by (intros x Hx; apply Hall; now right).
  now rewrite bind_ret_l.
Qed.

Lemma untextual_mapping_part (l : list pyval) :
  all_mappings l ->
  (has_untextual_part l <->
   exists part, In part (map mapping_part l) /\ truthy part = true /\
                forall s, part <> PStr s).
Proof.
  intros Hall. unfold has_untextual_part. split.
  - intros [d [Hin [Ht Hns]]]. exists (dict_part d "content" "text").
    split; [|auto]. apply in_map_iff. exists (PDict d). auto.
  - intros [part [Hin [Ht Hns]]]. apply in_map_iff in Hin.
    destruct Hin as [v [<- Hv]]. destruct (Hall v Hv) as [d ->].
    exists d. auto.
Qed.

(** X3.  For a response whose [text] reads without error and is not a
    string, and whose [candidates] is a non-empty list or tuple of mappings:
    the normaliser takes its fallback, the one it logs, exactly when some
    candidate's [content] or [text] is true and is not a string. *)
Theorem extract_fallback_iff (response : pyval) (t : option pyval)
        (candidates c : pyval) (cs : list pyval) :
  py_getattr response "text" = Return t ->
  (forall s, t <> Some (PStr s)) ->
  py_getattr response "candidates" = Return (Some candidates) ->
  seq_items candidates = Some (c :: cs) ->
  all_mappings (c :: cs) ->
  (snd (_extract_text_from_gemini_response response)
   = [LogException
        "Error extracting text from Gemini response; falling back to str(response)."]
   <-> has_untextual_part (c :: cs)).
Proof.
  intros Htext Hnot Hcand Hseq Hall.
  assert (Hbody : extract_try_body response
                  = (s <- join_nonempty (map mapping_part (c :: cs)) ;;
                     ret (PyStr.strip s))).
  { unfold extract_try_body. rewrite Htext, bind_lift_return.
    assert (Hstep : (c0 <- lift (py_getattr response "candidates") ;;
                     match c0 with
                     | Some candidates =>
                         match seq_items candidates with
                         | Some (c :: cs) =>
                             parts <- collect candidate_part (c :: cs) ;;
                             s <- join_nonempty parts ;;
                             ret (PyStr.strip s)
                         | _ =>
                             r <- from_outputs response ;;
                             match r with
                             | Some s => ret s
                             | None => from_mapping response
                             end
                         end
                     | None =>
                         r <- from_outputs response ;;
                         match r with
                         | Some s => ret s
                         | None => from_mapping response
                         end
                     end)
                    = (s <- join_nonempty (map mapping_part (c :: cs)) ;;
                       ret (PyStr.strip s))).
    { rewrite Hcand, bind_lift_return, Hseq, (collect_mappings _ Hall).
      now rewrite bind_ret_l. }
    destruct t as [[]|]; try exact Hstep. exfalso. exact (Hnot s eq_refl). }
  rewrite extract_run, Hbody, (untextual_mapping_part _ Hall),
    <- join_nonempty_raises.
  destruct (join_nonempty (map mapping_part (c :: cs))) as [[s|e] tr] eqn:Hjoin.
  - simpl. split; [discriminate | intros [e [t' H]]; discriminate].
  - simpl. split; [eauto | reflexivity].
Qed.

Lemma extract_fallback_iff_witness :
  snd (_extract_text_from_gemini_response structured_candidates)
  = [LogException
       "Error extracting text from Gemini response; falling back to str(response)."]
  <->
  has_untextual_part
    [PDict [("content", PDict [("parts", PList [PDict [("text", PStr "Hi")]])])]].
Proof.
  apply (extract_fallback_iff structured_candidates None
           (PList [PDict [("content",
                           PDict [("parts", PList [PDict [("text", PStr "Hi")]])])]])).
  - reflexivity.
  - discriminate.
  - reflexivity.
  - reflexivity.
  - intros v [<-|[]]. eexists. reflexivity.
Defined.

(** X4.  When the normaliser logs nothing, what it returns is trimmed: an
    untrimmed result only comes with the logged fallback. *)
Theorem extract_trimmed_when_silent (response : pyval) :
  snd (_extract_text_from_gemini_response response) = [] ->
  exists s,
    fst (_extract_text_from_gemini_response response) = Return s /\
    PyStr.trimmed s.
Proof.
  rewrite extract_run.
  destruct (extract_try_body response) as [[s|e] t] eqn:Hbody; simpl.
  - intros _. exists s. split; [reflexivity|].
    exact (proj1 (extract_try_body_trimmed response s t Hbody)).
  - discriminate.
Qed.

Lemma extract_trimmed_when_silent_witness :
  exists s,
    fst (_extract_text_from_gemini_response
           (PObj [("outputs",
                   Return (PList [PDict [("text", PStr " Hello ")];
                                  PDict [("content", PList [PStr "there"; PInt 2])]]))]
                 true (Return "<Response>") (Return "<Response>")))
    = Return s /\
    PyStr.trimmed s.
Proof.
  apply (extract_trimmed_when_silent
           (PObj [("outputs",
                   Return (PList [PDict [("text", PStr " Hello ")];
                                  PDict [("content", PList [PStr "there"; PInt 2])]]))]
                 true (Return "<Response>") (Return "<Response>"))).
  reflexivity.
Defined.

Example extract_outputs_joined :
  fst (_extract_text_from_gemini_response
         (PObj [("outputs",
                 Return (PList [PDict [("text", PStr " Hello ")];
                                PDict [("content", PList [PStr "there"; PInt 2])]]))]
               true (Return "<Response>") (Return "<Response>")))
  = Return "Hello  there 2".
Proof. reflexivity. Qed.

Lemma skip_space_lead (c : ascii) (r : string) :
  not_space_lead c = true -> PyStr.skip_space (String c r) = None.
Proof.
  intros Hlead. apply PyStrFacts.skip_any_none. intros w Hw r' Heq.
  unfold not_space_lead in Hlead. rewrite forallb_forall in Hlead.
  specialize (Hlead w Hw). destruct w as [|a w].
  - exact (PyStrFacts.spaces_nonempty "" Hw eq_refl).
  - simpl in Heq. injection Heq as -> _.
    rewrite Ascii.eqb_refl in Hlead. discriminate.
Qed.

Lemma strip_starts (c : ascii) (r : string) :
  not_space_lead c = true -> PyStr.strip (String c r) <> "".
Proof.
  intros Hlead. apply PyStrFacts.strip_nonempty; [discriminate|].
  now apply skip_space_lead.
Qed.

Lemma of_Z_starts (z : Z) :
  exists c r, PyStr.of_Z z = String c r /\ not_space_lead c = true.
Proof.
  unfold PyStr.of_Z, NilZero.string_of_int.
  destruct (Z.to_int z) as [d|d].
  - unfold NilZero.string_of_uint. destruct d; simpl; eauto.
  - eexists. eexists. split; reflexivity.
Qed.

Lemma enclose_return (open close text : string) (texts : outcome (list string)) :
  PyRepr.enclose open close texts = Return text ->
  exists ss, text = open ++ PyStr.join ", " ss ++ close.
Proof.
  destruct texts as [ss|e]; simpl; [|discriminate]. intros [= <-]. now exists ss.
Qed.

Lemma extract_try_body_builtin (response : pyval) :
  is_builtin_container_or_scalar response = true ->
  extract_try_body response = from_mapping response.
Proof.
  intros Hb. unfold extract_try_body, from_outputs.
  assert (Hattr : forall name, py_getattr response name = Return None)
    by (intros name; destruct response; try discriminate Hb; reflexivity).
  rewrite !Hattr.
  repeat first [ rewrite bind_lift_return | rewrite bind_ret_l
               | progress cbv beta iota zeta ].
  reflexivity.
Qed.

(** X5.  A response that is [None], a boolean, an integer, a list, a tuple
    or a mapping, and that [str()] can print, is normalised without an
    error and without a log record to a text that is trimmed and not
    empty. *)
Theorem extract_builtin_not_empty (response : pyval) (text : string) :
  is_builtin_container_or_scalar response = true ->
  PyRepr.py_str response = Return text ->
  exists s,
    _extract_text_from_gemini_response response = (Return s, []) /\
    s <> "" /\ PyStr.trimmed s.
Proof.
  intros Hb Hstr.
  assert (Hhead : exists c r, text = String c r /\ not_space_lead c = true).
  { destruct response; try discriminate Hb; simpl in Hstr.
    - injection Hstr as <-. eexists. eexists. split; reflexivity.
    - destruct b; injection Hstr as <-; eexists; eexists; split; reflexivity.
    - injection Hstr as <-. apply of_Z_starts.
    - apply enclose_return in Hstr. destruct Hstr as [ss ->].
      eexists. eexists. split; reflexivity.
    - destruct l as [|x [|y l]]; apply enclose_return in Hstr;
        destruct Hstr as [ss ->]; eexists; eexists; split; reflexivity.
    - apply enclose_return in Hstr. destruct Hstr as [ss ->].
      eexists. eexists. split; reflexivity. }
  destruct Hhead as [c [r [-> Hc]]].
  rewrite extract_run, (extract_try_body_builtin response Hb).
  unfold from_mapping.
  assert (Hplain :
            exists s,
              match fst (t <- lift (PyRepr.py_str response) ;; ret (PyStr.strip t)) with
              | Return s0 => (Return s0, [])
              | Raise _ =>
                  (PyRepr.py_str response,
                   [LogException
                      "Error extracting text from Gemini response; falling back to str(response)."])
              end = (Return s, @nil event) /\ s <> "" /\ PyStr.trimmed s).
  { rewrite Hstr, bind_lift_return. simpl fst.
    exists (PyStr.strip (String c r)).
    split; [reflexivity|]. split; [now apply strip_starts|].
    apply PyStrFacts.strip_trimmed. }
  destruct response; try discriminate Hb; try exact Hplain.
  destruct (first_text_field d _) eqn:Hf; [|exact Hplain].
  exists s. split; [reflexivity|].
  split; [exact (first_text_field_nonempty _ _ _ Hf)
         | exact (first_text_field_trimmed _ _ _ Hf)].
Qed.

(** A mapping whose only text is a no-break space: the text field is
    passed over and the mapping is printed. *)
Example extract_blank_text_field :
  _extract_text_from_gemini_response
    (PDict [("text", PStr (PyStr.utf8 0xA0)); ("reply", PInt 4)])
  = (Return "{'text': '\xa0', 'reply': 4}", []).
Proof. vm_compute. reflexivity. Qed.

Lemma extract_builtin_not_empty_witness :
  exists s,
    _extract_text_from_gemini_response
      (PDict [("text", PStr (PyStr.utf8 0xA0)); ("reply", PInt 4)])
    = (Return s, []) /\
    s <> "" /\ PyStr.trimmed s.
Proof.
  apply (extract_builtin_not_empty
           (PDict [("text", PStr (PyStr.utf8 0xA0)); ("reply", PInt 4)])
           "{'text': '\xa0', 'reply': 4}").
  - reflexivity.
  - reflexivity.
Defined.

(** * Further properties of the request handler *)

Lemma extract_events (response : pyval) :
  calls (snd (_extract_text_from_gemini_response response)) = [].
Proof.
  rewrite extract_run.
  destruct (extract_try_body response) as [[s|e] t]; reflexivity.
Qed.

Section HandlerRuns.
Variable ratio : string -> string -> Q.
Variable srv : server.

Lemma reply_to_failed (c : client_t) (user_message : string) (e : exn) :
  client srv = Some c ->
  match_predefined_answer ratio user_message = None ->
  invoke c (select_convention c) (DEFAULT_MODEL srv) (prompt_for user_message)
  = Raise e ->
  reply_to ratio srv user_message
  = (Return (error_response ("Gemini error: " ++ exn_text e) 500%Z),
     [LogInfo ("Received message: " ++ user_message);
      Generate (select_convention c) (DEFAULT_MODEL srv) (prompt_for user_message);
      LogException "Error while calling Gemini"]).
Proof.
  intros Hclient Hmiss Hcall. unfold reply_to, call_client.
  rewrite Hmiss, Hclient, Hcall. reflexivity.
Qed.

Lemma reply_to_answered (c : client_t) (user_message : string)
      (response : pyval) (s : string) (t : list event) :
  client srv = Some c ->
  match_predefined_answer ratio user_message = None ->
  invoke c (select_convention c) (DEFAULT_MODEL srv) (prompt_for user_message)
  = Return response ->
  _extract_text_from_gemini_response response = (Return s, t) ->
  reply_to ratio srv user_message
  = (Return (reply_response (if PyStr.is_empty s then EMPTY_RESPONSE_REPLY else s)),
     (LogInfo ("Received message: " ++ user_message)
      :: Generate (select_convention c) (DEFAULT_MODEL srv) (prompt_for user_message)
      :: t ++
      [LogInfo ("Gemini reply (truncated): " ++
                truncated (if PyStr.is_empty s then EMPTY_RESPONSE_REPLY else s))])%list).
Proof.
  intros Hclient Hmiss Hcall Hnorm. unfold reply_to, call_client.
  rewrite Hmiss, Hclient, Hcall. simpl. rewrite Hnorm. reflexivity.
Qed.

Lemma reply_to_normalise_failed (c : client_t) (user_message : string)
      (response : pyval) (e : exn) (t : list event) :
  client srv = Some c ->
  match_predefined_answer ratio user_message = None ->
  invoke c (select_convention c) (DEFAULT_MODEL srv) (prompt_for user_message)
  = Return response ->
  _extract_text_from_gemini_response response = (Raise e, t) ->
  reply_to ratio srv user_message
  = (Return (error_response ("Gemini error: " ++ exn_text e) 500%Z),
     (LogInfo ("Received message: " ++ user_message)
      :: Generate (select_convention c) (DEFAULT_MODEL srv) (prompt_for user_message)
      :: t ++ [LogException "Error while calling Gemini"])%list).
Proof.
  intros Hclient Hmiss Hcall Hnorm. unfold reply_to, call_client.
  rewrite Hmiss, Hclient, Hcall. simpl. rewrite Hnorm. reflexivity.
Qed.

Lemma chat_cases (data : pyval) : chat_case ratio srv data (chat ratio srv data).
Proof.
  pose proof (read_user_message_silent data) as Hsilent.
  pose proof (read_user_message_post data) as Hpost.
  unfold silent in Hsilent. unfold post in Hpost.
  destruct (read_user_message data) as [[[user_message|response]|e] t] eqn:Hread;
    simpl in Hsilent, Hpost; subst t.
  - rewrite (chat_after_read ratio srv data user_message)
      by (rewrite Hread; reflexivity).
    destruct (match_predefined_answer ratio user_message) as [answer|] eqn:Hm.
    + rewrite (reply_to_hit ratio srv user_message answer Hm).
      now apply Canned.
    + destruct (client srv) as [c|] eqn:Hc.
      * destruct (invoke c (select_convention c) (DEFAULT_MODEL srv)
                         (prompt_for user_message)) as [resp|e] eqn:Hcall.
        -- destruct (_extract_text_from_gemini_response resp) as [[s|e] t] eqn:Hnorm.
           ++ rewrite (reply_to_answered c user_message resp s t Hc Hm Hcall Hnorm).
              now apply (Answered ratio srv data user_message c resp s t).
           ++ rewrite (reply_to_normalise_failed c user_message resp e t
                         Hc Hm Hcall Hnorm).
              now apply (NormaliseFailed ratio srv data user_message c resp e t).
        -- rewrite (reply_to_failed c user_message e Hc Hm Hcall).
           now apply CallFailed.
      * rewrite (reply_to_unconfigured ratio srv user_message Hc Hm).
        now apply Unconfigured.
  - destruct Hpost as [text ->]. unfold chat. rewrite Hread. simpl.
    now apply Rejected.
  - unfold chat. rewrite Hread. simpl. now apply ReadRaises.
Qed.
End HandlerRuns.

Lemma calls_of_answer (c : client_t) (model prompt : string)
      (first final : event) (response : pyval) (o : outcome string)
      (t : list event) :
  is_call first = false ->
  is_call final = false ->
  _extract_text_from_gemini_response response = (o, t) ->
  calls (first :: Generate (select_convention c) model prompt :: t ++ [final])%list
  = [Generate (select_convention c) model prompt].
Proof.
  intros Hfirst Hfinal Hnorm. pose proof (extract_events response) as Hev.
  rewrite Hnorm in Hev. simpl in Hev.
  unfold calls in *. simpl. rewrite Hfirst. rewrite filter_app, Hev.
  simpl. now rewrite Hfinal.
Qed.

(** X6.  A run of the handler calls the client at most once, and only when
    a client is configured, a message was read and the matcher had no answer
    for it; the call then goes through the convention selected on the
    client, with the configured model and the prompt built from the
    message. *)
Theorem chat_at_most_one_call (ratio : string -> string -> Q) (srv : server)
        (data : pyval) :
  calls (snd (chat ratio srv data)) = [] \/
  exists c user_message,
    client srv = Some c /\
    fst (read_user_message data) = Return (inl user_message) /\
    match_predefined_answer ratio user_message = None /\
    calls (snd (chat ratio srv data))
    = [Generate (select_convention c) (DEFAULT_MODEL srv) (prompt_for user_message)].
Proof.
  destruct (chat_cases ratio srv data)
    as [e Hread | text Hread | msg answer Hread Hm | msg Hread Hm Hc
        | msg c e Hread Hm Hc Hcall | msg c response s t Hread Hm Hc Hcall Hnorm
        | msg c response e t Hread Hm Hc Hcall Hnorm];
    try (left; reflexivity); right; exists c, msg; rewrite Hread; cbn [fst snd];
    repeat split; auto.
  - now apply (calls_of_answer c _ _ _ _ response (Return s) t).
  - now apply (calls_of_answer c _ _ _ _ response (Raise e) t).
Qed.

(** X7.  The status tells the field: a returned response is 200 with a
    [reply], or 400 or 500 with an [error]. *)
Theorem chat_status_matches_field (ratio : string -> string -> Q) (srv : server)
        (data : pyval) (r : http_response) (t : list event) :
  chat ratio srv data = (Return r, t) ->
  (status r = 200%Z /\ exists text, body r = [("reply", PStr text)]) \/
  ((status r = 400%Z \/ status r = 500%Z) /\
   exists text, body r = [("error", PStr text)]).
Proof.
  intros Hrun. pose proof (chat_cases ratio srv data) as Hcase.
  rewrite Hrun in Hcase. inversion Hcase; subst; simpl; eauto.
Qed.

Lemma chat_status_matches_field_witness :
  (status (Resp [("error", PStr "Gemini error: 503 UNAVAILABLE")] 500%Z) = 200%Z /\
   exists text,
     body (Resp [("error", PStr "Gemini error: 503 UNAVAILABLE")] 500%Z)
     = [("reply", PStr text)]) \/
  ((status (Resp [("error", PStr "Gemini error: 503 UNAVAILABLE")] 500%Z) = 400%Z \/
    status (Resp [("error", PStr "Gemini error: 503 UNAVAILABLE")] 500%Z) = 500%Z) /\
   exists text,
     body (Resp [("error", PStr "Gemini error: 503 UNAVAILABLE")] 500%Z)
     = [("error", PStr text)]).
Proof.
  apply (chat_status_matches_field Difflib.ratio failing_server
           (PDict [("message", PStr "what's the weather in Tokyo")])
           (Resp [("error", PStr "Gemini error: 503 UNAVAILABLE")] 500%Z)
           [LogInfo "Received message: what's the weather in Tokyo";
            Generate ModelsGenerateContent "gemini-2.0-flash"
                     (prompt_for "what's the weather in Tokyo");
            LogException "Error while calling Gemini"]).
  vm_compute. reflexivity.
Defined.

(** X8.  The handler never returns an empty reply: the text of a [reply]
    field is a canned answer, the not-configured message, the text of the
    model, or the empty-response message in its place. *)
Theorem chat_reply_not_empty (ratio : string -> string -> Q) (srv : server)
        (data : pyval) (r : http_response) (t : list event) (text : string) :
  chat ratio srv data = (Return r, t) ->
  dict_get "reply" (body r) = Some (PStr text) ->
  text <> "".
Proof.
  intros Hrun Hreply. pose proof (chat_cases ratio srv data) as Hcase.
  rewrite Hrun in Hcase. inversion Hcase; subst; simpl in Hreply;
    try discriminate; injection Hreply as <-.
  - now apply (match_answer_nonempty ratio user_message).
  - discriminate.
  - destruct (PyStr.is_empty s) eqn:Hs; [discriminate|].
    now apply PyStrFacts.is_empty_false.
Qed.

(** A client whose answer carries no text at all. *)

(** A client whose answer carries no text at all. *)
Example chat_blank_model_reply :
  fst (chat Difflib.ratio
            (Server (Some (Client true true false false
                                  (fun _ _ _ =>
                                     Return (PObj [("text", Return (PStr "  "))] true
                                                  (Return "<Response>")
                                                  (Return "<Response>")))))
                    "gemini-2.0-flash")
            (PDict [("message", PStr "what's the weather in Tokyo")]))
  = Return (Resp [("reply",
                   PStr ("Received an empty response from the language model. " ++
                         "Please check the model configuration or the API key."))]
                 200%Z).
Proof. vm_compute. reflexivity. Qed.

Lemma chat_reply_not_empty_witness :
  "Sunny, I would guess." <> "".
Proof.
  apply (chat_reply_not_empty Difflib.ratio answering_server
           (PDict [("message", PStr "what's the weather in Tokyo")])
           (Resp [("reply", PStr "Sunny, I would guess.")] 200%Z)
           [LogInfo "Received message: what's the weather in Tokyo";
            Generate ModelsGenerateContent "gemini-2.0-flash"
                     (prompt_for "what's the weather in Tokyo");
            LogInfo "Gemini reply (truncated): Sunny, I would guess."]
           "Sunny, I would guess.").
  - vm_compute. reflexivity.
  - reflexivity.
Defined.

(** X9.  A request that is refused with 400 has done nothing: no log
    record and no call to the client. *)
Theorem chat_bad_request_does_nothing (ratio : string -> string -> Q) (srv : server)
        (data : pyval) (r : http_response) (t : list event) :
  chat ratio srv data = (Return r, t) ->
  status r = 400%Z ->
  t = [].
Proof.
  intros Hrun Hstatus. pose proof (chat_cases ratio srv data) as Hcase.
  rewrite Hrun in Hcase. inversion Hcase; subst; simpl in Hstatus;
    try discriminate; reflexivity.
Qed.

Lemma chat_bad_request_does_nothing_witness :
  @nil event = [].
Proof.
  apply (chat_bad_request_does_nothing Difflib.ratio answering_server
           (PDict [("messages", PList [])])
           (Resp [("error", PStr "Empty message provided")] 400%Z) []).
  - reflexivity.
  - reflexivity.
Defined.

(** X10.  Where a server error of the handler comes from.  A 500 that the
    handler itself returns presupposes a configured client, a message that
    was read and no canned answer for it, and its body is
    [{"error": "Gemini error: " + text}] for some text.  An exception that
    leaves the handler is one raised while the message was read, before
    any log record and before any call to the client. *)
Theorem chat_server_error_origin (ratio : string -> string -> Q) (srv : server)
        (data : pyval) :
  (forall r,
      fst (chat ratio srv data) = Return r ->
      status r = 500%Z ->
      exists c user_message text,
        client srv = Some c /\
        fst (read_user_message data) = Return (inl user_message) /\
        match_predefined_answer ratio user_message = None /\
        r = Resp [("error", PStr ("Gemini error: " ++ text))] 500%Z) /\
  (forall e,
      fst (chat ratio srv data) = Raise e ->
      fst (read_user_message data) = Raise e /\
      snd (chat ratio srv data) = []).
Proof.
  split.
  - intros r Hrun Hstatus.
    destruct (chat_cases ratio srv data)
      as [e Hread | text Hread | msg answer Hread Hm | msg Hread Hm Hc
          | msg c e Hread Hm Hc Hcall | msg c response s t Hread Hm Hc Hcall Hnorm
          | msg c response e t Hread Hm Hc Hcall Hnorm];
      cbn [fst] in Hrun; try discriminate Hrun;
      injection Hrun as <-; simpl in Hstatus; try discriminate Hstatus;
      exists c, msg, (exn_text e); rewrite Hread; repeat split; auto.
  - intros e Hrun.
    destruct (chat_cases ratio srv data)
      as [e' Hread | text Hread | msg answer Hread Hm | msg Hread Hm Hc
          | msg c e' Hread Hm Hc Hcall | msg c response s t Hread Hm Hc Hcall Hnorm
          | msg c response e' t Hread Hm Hc Hcall Hnorm];
      cbn [fst] in Hrun; try discriminate Hrun.
    injection Hrun as ->. rewrite Hread. split; reflexivity.
Qed.

Example chat_server_error_of_failing_client :
  exists c user_message text,
    client failing_server = Some c /\
    fst (read_user_message (PDict [("message", PStr "what's the weather in Tokyo")]))
    = Return (inl user_message) /\
    match_predefined_answer Difflib.ratio user_message = None /\
    Resp [("error", PStr "Gemini error: 503 UNAVAILABLE")] 500%Z
    = Resp [("error", PStr ("Gemini error: " ++ text))] 500%Z.
Proof.
  exists failing_client, "what's the weather in Tokyo", "503 UNAVAILABLE".
  repeat split; vm_compute; reflexivity.
Qed.

(** ** Reading the message *)

Lemma py_strip_post (v : pyval) : post PyStr.trimmed (py_strip v).
Proof.
  destruct v; try exact I. simpl. apply PyStrFacts.strip_trimmed.
Qed.

Lemma read_user_message_trimmed_post (data : pyval) :
  post (fun r => match r with
                 | inl user_message => PyStr.trimmed user_message
                 | inr _ => True
                 end)
       (read_user_message data).
Proof.
  unfold read_user_message. cbv zeta.
  repeat first
    [ apply post_ret; first [exact I | apply PyStrFacts.strip_trimmed
                            | apply PyStrFacts.trimmed_empty | assumption]
    | apply post_raise
    | match goal with
      | |- post _ (bind (py_strip _) _) =>
          apply (post_bind PyStr.trimmed); [apply py_strip_post | intros ? ?]
      | |- post _ (bind _ _) =>
          apply (post_bind (fun _ => True)); [apply post_true | intros ? _]
      | |- post _ (if ?b then _ else _) => destruct b eqn:?
      | |- post _ (match ?x with _ => _ end) => destruct x eqn:?
      end ].
Qed.

(** X11.  The message the handler reads, and hands to the matcher and to
    the prompt, is trimmed and is not empty. *)
Theorem read_user_message_trimmed (data : pyval) (user_message : string) :
  fst (read_user_message data) = Return (inl user_message) ->
  PyStr.trimmed user_message /\ user_message <> "".
Proof.
  intros Hread.
  pose proof (read_user_message_trimmed_post data) as Ht.
  pose proof (read_user_message_post data) as Hne.
  unfold post in Ht, Hne. rewrite Hread in Ht, Hne. auto.
Qed.

Lemma read_user_message_trimmed_witness :
  PyStr.trimmed "tell me more" /\ "tell me more" <> "".
Proof.
  apply (read_user_message_trimmed
           (PDict [("messages",
                    PList [PStr "hello";
                           PDict [("role", PStr "user");
                                  ("content", PStr "  tell me more  ")]])])).
  reflexivity.
Defined.

(** X12.  Every body that is false in Python (no JSON, [null], [false],
    [0], an empty string, list or object) is answered 400 with
    "No JSON body provided", before anything else is done. *)
Theorem chat_falsy_body (ratio : string -> string -> Q) (srv : server)
        (data : pyval) :
  truthy data = false ->
  chat ratio srv data
  = (Return (Resp [("error", PStr "No JSON body provided")] 400%Z), []).
Proof.
  intros Hfalse. unfold chat, read_user_message. rewrite Hfalse. reflexivity.
Qed.

Lemma chat_falsy_body_witness :
  chat Difflib.ratio answering_server (PList [])
  = (Return (Resp [("error", PStr "No JSON body provided")] 400%Z), []).
Proof.
  apply (chat_falsy_body Difflib.ratio answering_server (PList [])).
  reflexivity.
Defined.

Lemma read_message_text (d : list (string * pyval)) (s : string) :
  dict_get "message" d = Some (PStr s) ->
  read_user_message (PDict d)
  = if PyStr.is_empty (PyStr.strip s)
    then (Return (inr (error_response "Empty message provided" 400%Z)), [])
    else (Return (inl (PyStr.strip s)), []).
Proof.
  intros Hm. unfold read_user_message, py_contains, py_getitem, dict_has.
  destruct d as [|kv d]; [discriminate|]. simpl truthy. cbv zeta.
  rewrite Hm. simpl. now destruct (PyStr.is_empty (PyStr.strip s)).
Qed.

(** X13.  A [message] that is a string of white space only (or empty) is
    answered 400 with "Empty message provided". *)
Theorem chat_blank_message (ratio : string -> string -> Q) (srv : server)
        (d : list (string * pyval)) (s : string) :
  dict_get "message" d = Some (PStr s) ->
  PyStr.strip s = "" ->
  chat ratio srv (PDict d)
  = (Return (Resp [("error", PStr "Empty message provided")] 400%Z), []).
Proof.
  intros Hm Hblank. unfold chat.
  rewrite (read_message_text d s Hm), Hblank. reflexivity.
Qed.

Lemma chat_blank_message_witness :
  chat Difflib.ratio answering_server
       (PDict [("message", PStr (" " ++ PyStr.utf8 0xA0 ++ PyStr.utf8 0x2003));
               ("messages", PStr "life story")])
  = (Return (Resp [("error", PStr "Empty message provided")] 400%Z), []).
Proof.
  apply (chat_blank_message Difflib.ratio answering_server
           [("message", PStr (" " ++ PyStr.utf8 0xA0 ++ PyStr.utf8 0x2003));
            ("messages", PStr "life story")]
           (" " ++ PyStr.utf8 0xA0 ++ PyStr.utf8 0x2003)).
  - reflexivity.
  - reflexivity.
Defined.

(** X14.  A string [message] decides alone: every other field of the
    body, [messages] included, is ignored. *)
Theorem chat_message_takes_precedence (ratio : string -> string -> Q) (srv : server)
        (d : list (string * pyval)) (s : string) :
  dict_get "message" d = Some (PStr s) ->
  chat ratio srv (PDict d) = chat ratio srv (PDict [("message", PStr s)]).
Proof.
  intros Hm. unfold chat.
  rewrite (read_message_text d s Hm).
  now rewrite (read_message_text [("message", PStr s)] s eq_refl).
Qed.

Lemma chat_message_takes_precedence_witness :
  chat Difflib.ratio answering_server
       (PDict [("messages", PList [PStr "superpower"]); ("message", PStr "grow")])
  = chat Difflib.ratio answering_server (PDict [("message", PStr "grow")]).
Proof.
  apply (chat_message_takes_precedence Difflib.ratio answering_server
           [("messages", PList [PStr "superpower"]); ("message", PStr "grow")] "grow").
  reflexivity.
Defined.

Lemma read_messages_only (d : list (string * pyval)) (msgs : pyval) :
  (forall s, dict_get "message" d <> Some (PStr s)) ->
  dict_get "messages" d = Some msgs ->
  read_user_message (PDict d) = read_user_message (PDict [("messages", msgs)]).
Proof.
  intros Hm Hms. unfold read_user_message, py_contains, py_getitem, dict_has.
  destruct d as [|kv d]; [discriminate|].
  change (truthy (PDict (kv :: d))) with true.
  change (truthy (PDict [("messages", msgs)])) with true.
  change (dict_get "message" [("messages", msgs)]) with (@None pyval).
  change (dict_get "messages" [("messages", msgs)]) with (Some msgs).
  rewrite Hms. change (negb true) with false. cbv beta iota zeta.
  rewrite !bind_ret_l.
  destruct (dict_get "message" (kv :: d)) as [v|] eqn:Hv.
  - rewrite !bind_ret_l.
    destruct v; rewrite ?bind_ret_l; try reflexivity.
    exfalso. exact (Hm s eq_refl).
  - rewrite !bind_ret_l. reflexivity.
Qed.

Lemma read_messages_last (pre : list pyval) (x : pyval) :
  read_user_message (PDict [("messages", PList (pre ++ [x]))])
  = read_user_message (PDict [("messages", PList [x])]).
Proof.
  unfold read_user_message, py_contains, py_getitem, dict_has.
  change (truthy (PDict [("messages", PList (pre ++ [x]))])) with true.
  change (truthy (PDict [("messages", PList [x])])) with true.
  change (dict_get "message" [("messages", PList (pre ++ [x]))]) with (@None pyval).
  change (dict_get "message" [("messages", PList [x])]) with (@None pyval).
  change (dict_get "messages" [("messages", PList (pre ++ [x]))])
    with (Some (PList (pre ++ [x]))).
  change (dict_get "messages" [("messages", PList [x])]) with (Some (PList [x])).
  change (negb true) with false. cbv beta iota zeta.
  rewrite !bind_ret_l. cbv beta iota.
  change (last [x] PNone) with x.
  assert (Hlast : last (pre ++ [x]) PNone = x) by apply last_last.
  destruct (pre ++ [x])%list as [|m ms] eqn:Hl.
  - destruct pre; discriminate.
  - rewrite Hlast. reflexivity.
Qed.

(** X15.  When [message] is not a string, a [messages] list is read by its
    last element only: the elements before it and the other fields of the
    body change nothing. *)
Theorem chat_messages_last_only (ratio : string -> string -> Q) (srv : server)
        (d : list (string * pyval)) (pre : list pyval) (x : pyval) :
  (forall s, dict_get "message" d <> Some (PStr s)) ->
  dict_get "messages" d = Some (PList (pre ++ [x])) ->
  chat ratio srv (PDict d) = chat ratio srv (PDict [("messages", PList [x])]).
Proof.
  intros Hm Hms. unfold chat.
  now rewrite (read_messages_only d _ Hm Hms), read_messages_last.
Qed.

Lemma chat_messages_last_only_witness :
  chat Difflib.ratio answering_server
       (PDict [("message", PInt 7);
               ("messages", PList ([PStr "life story"; PInt 3] ++ [PStr "grow"]))])
  = chat Difflib.ratio answering_server (PDict [("messages", PList [PStr "grow"])]).
Proof.
  apply (chat_messages_last_only Difflib.ratio answering_server
           [("message", PInt 7);
            ("messages", PList ([PStr "life story"; PInt 3] ++ [PStr "grow"]))]
           [PStr "life story"; PInt 3] (PStr "grow")).
  - intros s. discriminate.
  - reflexivity.
Defined.

Lemma existsb_is_str (k : string) (l : list pyval) :
  existsb (is_str k) l = true <-> In (PStr k) l.
Proof.
  rewrite existsb_exists. split.
  - intros [v [Hin Hv]]. destruct v; try discriminate.
    simpl in Hv. apply String.eqb_eq in Hv. now subst.
  - intros Hin. exists (PStr k). split; [exact Hin|]. simpl. apply String.eqb_refl.
Qed.

(** X16.  A body that is true and is no container (a number other than
    zero, [true]) makes the handler raise a [TypeError] at the first test of
    a field: no response is returned. *)
Theorem chat_non_container_raises (ratio : string -> string -> Q) (srv : server)
        (data : pyval) :
  truthy data = true ->
  not_a_container data = true ->
  exists text, chat ratio srv data = (Raise (TypeError text), []).
Proof.
  intros Ht Hn. unfold chat, read_user_message. rewrite Ht.
  destruct data; try discriminate Hn; eexists; reflexivity.
Qed.

Lemma chat_non_container_raises_witness :
  exists text,
    chat Difflib.ratio answering_server (PInt 42) = (Raise (TypeError text), []).
Proof.
  apply (chat_non_container_raises Difflib.ratio answering_server (PInt 42));
    reflexivity.
Defined.

(** X17.  A body that is a JSON array: when one of its elements is the
    string "message" or the string "messages" the handler raises a
    [TypeError] (it subscripts the list with that name); otherwise a
    non-empty array is answered 400 with
    "No 'message' or 'messages' provided". *)
Theorem chat_array_body (ratio : string -> string -> Q) (srv : server)
        (l : list pyval) :
  l <> [] ->
  ((In (PStr "message") l \/ In (PStr "messages") l) ->
   exists text, chat ratio srv (PList l) = (Raise (TypeError text), [])) /\
  (~ In (PStr "message") l -> ~ In (PStr "messages") l ->
   chat ratio srv (PList l)
   = (Return (Resp [("error", PStr "No 'message' or 'messages' provided")] 400%Z),
      [])).
Proof.
  intros Hne.
  assert (Htruthy : truthy (PList l) = true) by (destruct l; [congruence|reflexivity]).
  unfold chat, read_user_message, py_contains, py_getitem. rewrite Htruthy.
  change (negb true) with false. cbv beta iota zeta.
  rewrite !bind_ret_l.
  destruct (existsb (is_str "message") l) eqn:Hm.
  - split.
    + intros _. eexists. reflexivity.
    + intros Hno. apply existsb_is_str in Hm. contradiction.
  - rewrite !bind_ret_l.
    destruct (existsb (is_str "messages") l) eqn:Hms.
    + split.
      * intros _. eexists. reflexivity.
      * intros _ Hno. apply existsb_is_str in Hms. contradiction.
    + split.
      * intros [H|H]; apply existsb_is_str in H; congruence.
      * intros _ _. reflexivity.
Qed.

Lemma chat_array_body_witness :
  ((In (PStr "message") [PStr "hello"; PStr "messages"] \/
    In (PStr "messages") [PStr "hello"; PStr "messages"]) ->
   exists text,
     chat Difflib.ratio answering_server (PList [PStr "hello"; PStr "messages"])
     = (Raise (TypeError text), [])) /\
  (~ In (PStr "message") [PStr "hello"; PStr "messages"] ->
   ~ In (PStr "messages") [PStr "hello"; PStr "messages"] ->
   chat Difflib.ratio answering_server (PList [PStr "hello"; PStr "messages"])
   = (Return (Resp [("error", PStr "No 'message' or 'messages' provided")] 400%Z),
      [])).
Proof.
  apply (chat_array_body Difflib.ratio answering_server
           [PStr "hello"; PStr "messages"]).
  discriminate.
Defined.

(** X18.  When the last element of [messages] is a mapping whose [content]
    is true and is not a string (a number, a list, a nested object), the
    handler raises an [AttributeError] on its [strip]: no response is
    returned. *)
Theorem chat_last_content_not_text (ratio : string -> string -> Q) (srv : server)
        (d : list (string * pyval)) (pre : list pyval)
        (last_message : list (string * pyval)) (v : pyval) :
  (forall s, dict_get "message" d <> Some (PStr s)) ->
  dict_get "messages" d = Some (PList (pre ++ [PDict last_message])) ->
  dict_get "content" last_message = Some v ->
  truthy v = true ->
  (forall s, v <> PStr s) ->
  exists text, chat ratio srv (PDict d) = (Raise (AttributeError text), []).
Proof.
  intros Hm Hms Hcontent Htrue Hnot. unfold chat.
  rewrite (read_messages_only d _ Hm Hms), read_messages_last.
  unfold read_user_message, py_contains, py_getitem, dict_has.
  change (truthy (PDict [("messages", PList [PDict last_message])])) with true.
  change (dict_get "message" [("messages", PList [PDict last_message])])
    with (@None pyval).
  change (dict_get "messages" [("messages", PList [PDict last_message])])
    with (Some (PList [PDict last_message])).
  change (negb true) with false. cbv beta iota zeta.
  rewrite !bind_ret_l. cbv beta iota.
  change (last [PDict last_message] PNone) with (PDict last_message).
  cbv beta iota. rewrite Hcontent. unfold or_none at 1. unfold py_or.
  rewrite Htrue. rewrite Htrue. rewrite Htrue.
  destruct v; try (eexists; reflexivity). exfalso. exact (Hnot s eq_refl).
Qed.

Lemma chat_last_content_not_text_witness :
  exists text,
    chat Difflib.ratio answering_server
         (PDict [("messages",
                  PList ([PStr "hi"] ++
                         [PDict [("role", PStr "user");
                                 ("content", PList [PDict [("text", PStr "grow")]])]]))])
    = (Raise (AttributeError text), []).
Proof.
  apply (chat_last_content_not_text Difflib.ratio answering_server
           [("messages",
             PList ([PStr "hi"] ++
                    [PDict [("role", PStr "user");
                            ("content", PList [PDict [("text", PStr "grow")]])]]))]
           [PStr "hi"]
           [("role", PStr "user"); ("content", PList [PDict [("text", PStr "grow")]])]
           (PList [PDict [("text", PStr "grow")]])).
  - intros s. discriminate.
  - reflexivity.
  - reflexivity.
  - reflexivity.
  - intros s. discriminate.
Defined.

(** X19.  When [message] is not a string and [messages] is present but is
    neither a string nor a list that ends in a string or a mapping (an empty
    list, [null], a number, an object, a list ending in a number), the
    answer is 400 with "Empty message provided". *)
Theorem chat_messages_unreadable (ratio : string -> string -> Q) (srv : server)
        (d : list (string * pyval)) (msgs : pyval) :
  (forall s, dict_get "message" d <> Some (PStr s)) ->
  dict_get "messages" d = Some msgs ->
  readable_messages msgs = false ->
  chat ratio srv (PDict d)
  = (Return (Resp [("error", PStr "Empty message provided")] 400%Z), []).
Proof.
  intros Hm Hms Hun. unfold chat. rewrite (read_messages_only d _ Hm Hms).
  unfold read_user_message, py_contains, py_getitem, dict_has.
  change (truthy (PDict [("messages", msgs)])) with true.
  change (dict_get "message" [("messages", msgs)]) with (@None pyval).
  change (dict_get "messages" [("messages", msgs)]) with (Some msgs).
  change (negb true) with false. cbv beta iota zeta.
  rewrite !bind_ret_l.
  destruct msgs; try discriminate Hun; try reflexivity.
  destruct l as [|m ms]; [reflexivity|].
  unfold readable_messages in Hun.
  destruct (last (m :: ms) PNone); try discriminate Hun; reflexivity.
Qed.

Lemma chat_messages_unreadable_witness :
  chat Difflib.ratio answering_server
       (PDict [("messages", PList [PStr "life story"; PInt 5])])
  = (Return (Resp [("error", PStr "Empty message provided")] 400%Z), []).
Proof.
  apply (chat_messages_unreadable Difflib.ratio answering_server
           [("messages", PList [PStr "life story"; PInt 5])]
           (PList [PStr "life story"; PInt 5])).
  - intros s. discriminate.
  - reflexivity.
  - reflexivity.
Defined.

(** X20.  With a client, a message that was read and no canned answer: when
    the call returns a response that normalises to [s], the handler returns
    200 with [s] as the reply, or with the empty-response message when [s]
    is empty. *)
Theorem chat_generated_reply (ratio : string -> string -> Q) (srv : server)
        (c : client_t) (data : pyval) (user_message : string)
        (response : pyval) (s : string) :
  client srv = Some c ->
  fst (read_user_message data) = Return (inl user_message) ->
  match_predefined_answer ratio user_message = None ->
  invoke c (select_convention c) (DEFAULT_MODEL srv) (prompt_for user_message)
  = Return response ->
  fst (_extract_text_from_gemini_response response) = Return s ->
  fst (chat ratio srv data)
  = Return (Resp [("reply",
                   PStr (if PyStr.is_empty s then EMPTY_RESPONSE_REPLY else s))]
                 200%Z).
Proof.
  intros Hclient Hread Hmiss Hcall Hnorm.
  rewrite (chat_after_read ratio srv data user_message Hread).
  rewrite (reply_to_call ratio srv c user_message Hclient Hmiss), Hcall, Hnorm.
  reflexivity.
Qed.

Lemma chat_generated_reply_witness :
  fst (chat Difflib.ratio answering_server
            (PDict [("message", PStr "what's the weather in Tokyo")]))
  = Return (Resp [("reply",
                   PStr (if PyStr.is_empty "Sunny, I would guess."
                         then EMPTY_RESPONSE_REPLY else "Sunny, I would guess."))]
                 200%Z).
Proof.
  apply (chat_generated_reply Difflib.ratio answering_server answering_client
           (PDict [("message", PStr "what's the weather in Tokyo")])
           "what's the weather in Tokyo"
           (PObj [("text", Return (PStr " Sunny, I would guess. "))]
                 true (Return "<Response>") (Return "<Response>"))).
  - reflexivity.
  - reflexivity.
  - vm_compute. reflexivity.
  - reflexivity.
  - reflexivity.
Defined.

Lemma len_take_min (n : nat) (s : string) :
  PyStr.len (PyStr.take n s) = Nat.min n (PyStr.len s).
Proof.
  revert n. induction s as [|c s IH]; intros n; simpl; [now rewrite Nat.min_0_r|].
  destruct (PyStr.is_continuation c) eqn:Hc; simpl.
  - rewrite Hc. exact (IH n).
  - destruct n as [|n]; simpl; [reflexivity|]. rewrite Hc, IH. reflexivity.
Qed.

(** X21.  The text of the model that goes into the log is cut by
    characters: a text of 200 characters or fewer is logged whole, a longer
    one as its first 200 characters and three dots, 203 characters in
    all. *)
Theorem truncated_length (reply_text : string) :
  PyStr.len (truncated reply_text) <= 203 /\
  (PyStr.len reply_text <= 200 -> truncated reply_text = reply_text) /\
  (200 < PyStr.len reply_text ->
   truncated reply_text = PyStr.take 200 reply_text ++ "..." /\
   PyStr.len (truncated reply_text) = 203).
Proof.
  unfold truncated. destruct (200 <? PyStr.len reply_text)%nat eqn:Hlen.
  - apply Nat.ltb_lt in Hlen.
    assert (Hcut : PyStr.len (PyStr.take 200 reply_text ++ "...") = 203).
    { rewrite PyStrFacts.len_append, len_take_min.
      change (PyStr.len "...") with 3. lia. }
    repeat split; solve [lia | reflexivity].
  - apply Nat.ltb_ge in Hlen. repeat split; solve [lia | reflexivity].
Qed.

Lemma truncated_length_witness :
  PyStr.len (truncated "Sunny, I would guess.") <= 203 /\
  (PyStr.len "Sunny, I would guess." <= 200 ->
   truncated "Sunny, I would guess." = "Sunny, I would guess.") /\
  (200 < PyStr.len "Sunny, I would guess." ->
   truncated "Sunny, I would guess."
   = PyStr.take 200 "Sunny, I would guess." ++ "..." /\
   PyStr.len (truncated "Sunny, I would guess.") = 203).
Proof.
  apply (truncated_length "Sunny, I would guess.").
Defined.

(** 201 characters of three bytes each: the cut keeps 200 of them. *)
Example truncated_counts_characters :
  String.length (String.concat "" (repeat (PyStr.utf8 0x6210) 201)) = 603 /\
  PyStr.len (String.concat "" (repeat (PyStr.utf8 0x6210) 201)) = 201 /\
  truncated (String.concat "" (repeat (PyStr.utf8 0x6210) 201))
  = String.concat "" (repeat (PyStr.utf8 0x6210) 200) ++ "...".
Proof. vm_compute. repeat split. Qed.

(** * Start-up configuration *)

Lemma opt_or_truthy (a b : option string) (k : string) :
  opt_or a b = Some k -> k <> "" ->
  (a = Some k) \/ (opt_truthy a = false /\ b = Some k).
Proof.
  unfold opt_or. destruct (opt_truthy a) eqn:Ha; auto.
Qed.

(** X22.  The credential is the value of the first of the names
    GEMINI_API_KEY, GOOGLE_API_KEY, GOOGLE_CLOUD_API_KEY that is set to a
    string that is not empty: a name that is unset or set to the empty
    string is passed over. *)
Theorem api_key_first_set (env : dict string) (k : string) :
  k <> "" ->
  (GEMINI_API_KEY env = Some k <->
   exists before name after,
     API_KEY_NAMES = (before ++ name :: after)%list /\
     getenv env name = Some k /\
     forall n, In n before -> opt_truthy (getenv env n) = false).
Proof.
  intros Hk. unfold GEMINI_API_KEY, API_KEY_NAMES.
  assert (Htrue : opt_truthy (Some k) = true).
  { simpl. apply PyStrFacts.is_empty_false in Hk. now rewrite Hk. }
  split.
  - intros Hkey.
    destruct (opt_or_truthy _ _ k Hkey Hk) as [H12 | [Hf12 H3]].
    + destruct (opt_or_truthy _ _ k H12 Hk) as [H1 | [Hf1 H2]].
      * exists [], "GEMINI_API_KEY", ["GOOGLE_API_KEY"; "GOOGLE_CLOUD_API_KEY"].
        repeat split; auto. intros n [].
      * exists ["GEMINI_API_KEY"], "GOOGLE_API_KEY", ["GOOGLE_CLOUD_API_KEY"].
        repeat split; auto. intros n [<-|[]]. exact Hf1.
    + exists ["GEMINI_API_KEY"; "GOOGLE_API_KEY"], "GOOGLE_CLOUD_API_KEY", [].
      repeat split; auto.
      unfold opt_or in Hf12.
      destruct (opt_truthy (getenv env "GEMINI_API_KEY")) eqn:H1; [congruence|].
      intros n [<-|[<-|[]]]; assumption.
  - intros [before [name [after [Hsplit [Hget Hbefore]]]]].
    destruct before as [|n1 [|n2 [|n3 before]]]; simpl in Hsplit;
      injection Hsplit as; subst.
    + unfold opt_or. rewrite Hget, Htrue. cbv iota. now rewrite Htrue.
    + unfold opt_or.
      rewrite (Hbefore "GEMINI_API_KEY" (or_introl eq_refl)).
      rewrite Hget, Htrue. reflexivity.
    + unfold opt_or.
      rewrite (Hbefore "GEMINI_API_KEY" (or_introl eq_refl)).
      rewrite (Hbefore "GOOGLE_API_KEY" (or_intror (or_introl eq_refl))).
      exact Hget.
    + destruct before; discriminate.
Qed.

Lemma api_key_first_set_witness :
  GEMINI_API_KEY [("GEMINI_API_KEY", ""); ("GOOGLE_CLOUD_API_KEY", "cloud-key");
                  ("GOOGLE_API_KEY", "google-key")]
  = Some "google-key" <->
  exists before name after,
    API_KEY_NAMES = (before ++ name :: after)%list /\
    getenv [("GEMINI_API_KEY", ""); ("GOOGLE_CLOUD_API_KEY", "cloud-key");
            ("GOOGLE_API_KEY", "google-key")] name
    = Some "google-key" /\
    forall n, In n before ->
              opt_truthy
                (getenv [("GEMINI_API_KEY", ""); ("GOOGLE_CLOUD_API_KEY", "cloud-key");
                         ("GOOGLE_API_KEY", "google-key")] n)
              = false.
Proof.
  apply (api_key_first_set
           [("GEMINI_API_KEY", ""); ("GOOGLE_CLOUD_API_KEY", "cloud-key");
            ("GOOGLE_API_KEY", "google-key")] "google-key").
  discriminate.
Defined.

Example api_key_passes_over_empty :
  GEMINI_API_KEY [("GEMINI_API_KEY", ""); ("GOOGLE_CLOUD_API_KEY", "cloud-key");
                  ("GOOGLE_API_KEY", "google-key")]
  = Some "google-key".
Proof. reflexivity. Qed.

Lemma module_init_client (genai : option (string -> outcome client_t))
      (env : dict string) (c : client_t) :
  client (fst (module_init genai env)) = Some c <->
  exists new_client k,
    genai = Some new_client /\
    GEMINI_API_KEY env = Some k /\
    k <> "" /\
    new_client k = Return c.
Proof.
  unfold module_init.
  destruct genai as [new_client|]; destruct (GEMINI_API_KEY env) as [k|];
    try (split; [discriminate | intros [n [k' [H1 [H2 _]]]]; discriminate]).
  destruct (PyStr.is_empty k) eqn:Hk.
  - split; [discriminate|].
    intros [n [k' [_ [[= <-] [Hne _]]]]].
    apply PyStrFacts.is_empty_true in Hk. contradiction.
  - apply PyStrFacts.is_empty_false in Hk.
    destruct (new_client k) as [c'|e] eqn:Hnew; simpl.
    + split.
      * intros [= <-]. exists new_client, k. auto.
      * intros [n [k' [[= <-] [[= <-] [_ Hret]]]]]. congruence.
    + split; [discriminate|].
      intros [n [k' [[= <-] [[= <-] [_ Hret]]]]]. congruence.
Qed.

(** X23.  The server has a client exactly when the SDK was imported, a
    credential that is not empty was found, and the constructor of the
    client returned; in every other case (no SDK, no credential, a
    constructor that raises) start-up goes on without a client. *)
Theorem module_init_client_iff (genai : option (string -> outcome client_t))
        (env : dict string) (c : client_t) :
  client (fst (module_init genai env)) = Some c <->
  exists new_client k,
    genai = Some new_client /\
    GEMINI_API_KEY env = Some k /\
    k <> "" /\
    new_client k = Return c.
Proof. exact (module_init_client genai env c). Qed.

Lemma module_init_client_iff_witness :
  client (fst (module_init (Some (fun _ => Return answering_client))
                           [("GOOGLE_API_KEY", "google-key")]))
  = Some answering_client.
Proof.
  apply (proj2 (module_init_client_iff
                  (Some (fun _ => Return answering_client))
                  [("GOOGLE_API_KEY", "google-key")] answering_client)).
  exists (fun _ => Return answering_client), "google-key".
  repeat split. discriminate.
Defined.

(** Start-up with an SDK whose constructor raises: no client, and the
    failure is logged. *)
Example module_init_constructor_raises :
  module_init (Some (fun _ => Raise (Exn "ValueError" "bad key")))
              [("GEMINI_API_KEY", "k"); ("GEMINI_MODEL", "")]
  = (Server None "",
     [CreateClient "k";
      LogCreateException
        "Failed to create genai.Client; continuing without Gemini client."]).
Proof. reflexivity. Qed.

Lemma client_none_no_call (ratio : string -> string -> Q) (srv : server)
      (data : pyval) :
  client srv = None ->
  calls (snd (chat ratio srv data)) = [] /\
  (forall r, fst (chat ratio srv data) = Return r -> status r <> 500%Z) /\
  (forall e, fst (chat ratio srv data) = Raise e ->
             fst (read_user_message data) = Raise e).
Proof.
  intros Hnone.
  destruct (chat_cases ratio srv data)
    as [e Hread | text Hread | msg answer Hread Hm | msg Hread Hm Hc
        | msg c e Hread Hm Hc Hcall | msg c response s t Hread Hm Hc Hcall Hnorm
        | msg c response e t Hread Hm Hc Hcall Hnorm];
    try congruence; cbn [fst snd]; rewrite Hread; cbn [fst];
    (split; [reflexivity|]); split;
    try (intros r [= <-]; discriminate); try (intros e' [= <-]; reflexivity);
    try (intros e' He'; discriminate He').
Qed.

(** X24.  A server started without a credential (each of the three names
    unset or empty), whatever the SDK and whatever the request: the
    handler calls no client, a response it returns is never a 500, and an
    exception that leaves it was raised while the message was read. *)
Theorem chat_without_credential (ratio : string -> string -> Q)
        (genai : option (string -> outcome client_t)) (env : dict string)
        (data : pyval) :
  (forall name, In name API_KEY_NAMES -> opt_truthy (getenv env name) = false) ->
  calls (snd (chat ratio (fst (module_init genai env)) data)) = [] /\
  (forall r, fst (chat ratio (fst (module_init genai env)) data) = Return r ->
             status r <> 500%Z) /\
  (forall e, fst (chat ratio (fst (module_init genai env)) data) = Raise e ->
             fst (read_user_message data) = Raise e).
Proof.
  intros Hunset.
  apply (client_none_no_call ratio (fst (module_init genai env)) data).
  destruct (client (fst (module_init genai env))) as [c|] eqn:Hc; [|reflexivity].
  apply module_init_client in Hc.
  destruct Hc as [new_client [k [_ [Hkey [Hne _]]]]].
  exfalso.
  assert (Hfalse : opt_truthy (GEMINI_API_KEY env) = false).
  { unfold GEMINI_API_KEY, opt_or.
    rewrite (Hunset "GEMINI_API_KEY") by (simpl; auto).
    rewrite (Hunset "GOOGLE_API_KEY") by (simpl; auto).
    apply Hunset. simpl. auto. }
  rewrite Hkey in Hfalse. simpl in Hfalse.
  apply PyStrFacts.is_empty_false in Hne. rewrite Hne in Hfalse. discriminate.
Qed.

Lemma no_credential_in_env (name : string) :
  In name API_KEY_NAMES ->
  opt_truthy (getenv [("GEMINI_MODEL", "gemini-2.5-pro"); ("GOOGLE_API_KEY", "")] name)
  = false.
Proof.
  intros [<-|[<-|[<-|[]]]]; reflexivity.
Defined.

Lemma chat_without_credential_witness :
  calls (snd (chat Difflib.ratio
                   (fst (module_init (Some (fun _ => Return answering_client))
                                     [("GEMINI_MODEL", "gemini-2.5-pro");
                                      ("GOOGLE_API_KEY", "")]))
                   (PDict [("message", PStr "what's the weather in Tokyo")])))
  = [] /\
  (forall r,
      fst (chat Difflib.ratio
                (fst (module_init (Some (fun _ => Return answering_client))
                                  [("GEMINI_MODEL", "gemini-2.5-pro");
                                   ("GOOGLE_API_KEY", "")]))
                (PDict [("message", PStr "what's the weather in Tokyo")]))
      = Return r ->
      status r <> 500%Z) /\
  (forall e,
      fst (chat Difflib.ratio
                (fst (module_init (Some (fun _ => Return answering_client))
                                  [("GEMINI_MODEL", "gemini-2.5-pro");
                                   ("GOOGLE_API_KEY", "")]))
                (PDict [("message", PStr "what's the weather in Tokyo")]))
      = Raise e ->
      fst (read_user_message (PDict [("message", PStr "what's the weather in Tokyo")]))
      = Raise e).
Proof.
  apply (chat_without_credential Difflib.ratio
           (Some (fun _ => Return answering_client))
           [("GEMINI_MODEL", "gemini-2.5-pro"); ("GOOGLE_API_KEY", "")]
           (PDict [("message", PStr "what's the weather in Tokyo")])).
  exact no_credential_in_env.
Defined.

Example chat_without_credential_answer :
  chat Difflib.ratio
       (fst (module_init (Some (fun _ => Return answering_client))
                         [("GEMINI_MODEL", "gemini-2.5-pro"); ("GOOGLE_API_KEY", "")]))
       (PDict [("message", PStr "what's the weather in Tokyo")])
  = (Return (Resp [("reply", PStr NOT_CONFIGURED_REPLY)] 200%Z),
     [LogInfo "Received message: what's the weather in Tokyo";
      LogInfo "Gemini client not configured; returning helpful fallback message."]).
Proof. vm_compute. reflexivity. Qed.
